(** * The HTTP transport of the add service (internal/app/add/transports/http.go)

    A shallow embedding of the transport layer: the client-side error
    decoder, the route table, the client constructor, the response decoders,
    the error translator [httpEncodeError] and the response encoder, together
    with the parts of the Go libraries they call (strings, unicode/utf8,
    encoding/json, net/http, net/url, grpc status), kept at the level of
    detail the transport code can observe. *)

From Stdlib Require Import ZArith Lia Ascii String List Bool.
From Stdlib Require Import DecimalString DecimalZ DecimalPos.
From stdpp Require Import base option list strings gmap.

Local Open Scope string_scope.
Local Open Scope Z_scope.
Local Set Warnings "-register-all".

(* ===================================================================== *)
(** ** Go values *)
(* ===================================================================== *)

(** A Go slice: [None] is the nil slice, [Some l] a slice holding [l]
    ([Some []] is empty but not nil; encoding/json tells the two apart). *)
Definition slice (A : Type) : Type := option (list A).

Definition elems {A : Type} (s : slice A) : list A :=
  match s with
  | None => []
  | Some l => l
  end.

(** The outcome of running a Go function that may panic. *)
Inductive outcome (A : Type) : Type :=
| Returns (a : A)
| Panics (reason : string).
Arguments Returns {A} a.
Arguments Panics {A} reason.

(** [s[0]] on a slice: a run-time panic when the slice has no element. *)
Definition index0 {A : Type} (s : slice A) : outcome A :=
  match elems s with
  | x :: _ => Returns x
  | [] => Panics "index out of range [0] with length 0"
  end.

Definition byte_of (c : ascii) : N := N_of_ascii c.

Definition in_range (lo hi : N) (c : ascii) : bool :=
  (N.leb lo (byte_of c) && N.leb (byte_of c) hi)%bool.

(* ===================================================================== *)
(** ** package strings *)
(* ===================================================================== *)

(** strings.HasPrefix(s, prefix) *)
Fixpoint HasPrefix (s pre : string) : bool :=
  match pre with
  | EmptyString => true
  | String p pre' =>
    match s with
    | EmptyString => false
    | String c s' => (Ascii.eqb c p && HasPrefix s' pre')%bool
    end
  end.

(** strings.Contains(s, substr) *)
Fixpoint Contains (s substr : string) : bool :=
  (HasPrefix s substr ||
   match s with
   | EmptyString => false
   | String _ s' => Contains s' substr
   end)%bool.

(* ===================================================================== *)
(** ** package unicode/utf8 *)
(* ===================================================================== *)

(** What the first byte of an encoded rune announces (utf8's [first]
    table): the number of continuation bytes and the range the first of
    them has to lie in. *)
Inductive lead : Type :=
| lead_ascii
| lead_seq (more : nat) (lo hi : N)
| lead_invalid.

Definition classify (c : ascii) : lead :=
  let b := byte_of c in
  if N.ltb b 128 then lead_ascii
  else if N.ltb b 194 then lead_invalid
  else if N.leb b 223 then lead_seq 1 128 191
  else if N.eqb b 224 then lead_seq 2 160 191
  else if N.leb b 236 then lead_seq 2 128 191
  else if N.eqb b 237 then lead_seq 2 128 159
  else if N.leb b 239 then lead_seq 2 128 191
  else if N.eqb b 240 then lead_seq 3 144 191
  else if N.leb b 243 then lead_seq 3 128 191
  else if N.eqb b 244 then lead_seq 3 128 143
  else lead_invalid.

Definition cont (c : ascii) : bool := in_range 128 191 c.

(** The size of the rune that starts [String c s], as
    utf8.DecodeRuneInString reports it; [None] stands for
    (RuneError, 1), an invalid or truncated encoding. *)
Definition rune_size (c : ascii) (s : string) : option nat :=
  match classify c with
  | lead_ascii => Some 1%nat
  | lead_invalid => None
  | lead_seq more lo hi =>
    match s with
    | String c1 s1 =>
      if in_range lo hi c1 then
        match more with
        | 1%nat => Some 2%nat
        | 2%nat =>
          match s1 with
          | String c2 _ => if cont c2 then Some 3%nat else None
          | EmptyString => None
          end
        | _ =>
          match s1 with
          | String c2 (String c3 _) =>
            if (cont c2 && cont c3)%bool then Some 4%nat else None
          | _ => None
          end
        end
      else None
    | EmptyString => None
    end
  end.

(** U+FFFD, the replacement rune, in UTF-8. *)
Definition RuneError : string :=
  String (ascii_of_N 239) (String (ascii_of_N 191) (String (ascii_of_N 189) "")).

(** utf8.ValidString *)
Fixpoint ValidString (s : string) : bool :=
  match s with
  | EmptyString => true
  | String c0 t0 =>
    match rune_size c0 t0 with
    | None => false
    | Some 1%nat => ValidString t0
    | Some 2%nat =>
      match t0 with
      | String _ t1 => ValidString t1
      | _ => false
      end
    | Some 3%nat =>
      match t0 with
      | String _ (String _ t2) => ValidString t2
      | _ => false
      end
    | Some _ =>
      match t0 with
      | String _ (String _ (String _ t3)) => ValidString t3
      | _ => false
      end
    end
  end.

(** The coercion to valid UTF-8 that encoding/json applies to every string
    it writes: each byte that does not start a well-formed rune is replaced
    by U+FFFD, well-formed runes are kept. *)
Fixpoint ToValidUTF8 (s : string) : string :=
  match s with
  | EmptyString => EmptyString
  | String c0 t0 =>
    match rune_size c0 t0 with
    | None => RuneError +:+ ToValidUTF8 t0
    | Some 1%nat => String c0 (ToValidUTF8 t0)
    | Some 2%nat =>
      match t0 with
      | String c1 t1 => String c0 (String c1 (ToValidUTF8 t1))
      | _ => RuneError +:+ ToValidUTF8 t0
      end
    | Some 3%nat =>
      match t0 with
      | String c1 (String c2 t2) =>
        String c0 (String c1 (String c2 (ToValidUTF8 t2)))
      | _ => RuneError +:+ ToValidUTF8 t0
      end
    | Some _ =>
      match t0 with
      | String c1 (String c2 (String c3 t3)) =>
        String c0 (String c1 (String c2 (String c3 (ToValidUTF8 t3))))
      | _ => RuneError +:+ ToValidUTF8 t0
      end
    end
  end.

(* ===================================================================== *)
(** ** package strconv *)
(* ===================================================================== *)

Definition minInt64 : Z := - 2 ^ 63.
Definition maxInt64 : Z := 2 ^ 63 - 1.

Definition is_int64 (z : Z) : bool := ((minInt64 <=? z) && (z <=? maxInt64))%bool.

(** strconv.FormatInt(z, 10) *)
Definition FormatInt (z : Z) : string := NilZero.string_of_int (Z.to_int z).

(** strconv.ParseInt(lit, 10, 64) on the text of a JSON number: [None]
    when the text is not a run of decimal digits with an optional minus
    sign (a fraction or an exponent), or when the value leaves int64. *)
Definition ParseInt (lit : string) : option Z :=
  match NilZero.int_of_string lit with
  | Some d => if is_int64 (Z.of_int d) then Some (Z.of_int d) else None
  | None => None
  end.

(* ===================================================================== *)
(** ** Error values *)
(* ===================================================================== *)

(** Modelled from the spec: errors.Errors is declared in internal/pkg/errors,
    which is not among the sources. The spec describes a sub-error as
    [{field?, message}], written on the wire as an object with a
    ["message"] member. *)
Record errors_Errors : Type := {
  Errors_Field : option string;
  Errors_Message : string
}.

(** The method set of the interface errors.Error that the transport calls:
    Msg() and Errors(). *)
Record errors_Error : Type := {
  Msg : string;
  Errors : slice errors_Errors
}.

(** A gRPC status: codes.Code is a uint32. *)
Record Status : Type := {
  Status_Code : Z;
  Status_Message : string
}.

(** What the value comparisons and type switches of the transport can tell
    about the concrete value behind an [error]: the three sentinel values
    it compares with, the two decoder error types it switches on, or
    anything else. *)
Inductive concrete : Type :=
| is_io_EOF
| is_io_ErrUnexpectedEOF
| is_kitjwt_ErrTokenContextMissing
| is_json_SyntaxError
| is_json_UnmarshalTypeError
| is_other.

(** A non-nil Go [error] (the server calls its error encoder on non-nil
    errors only): its Error() text, its concrete value, the status that
    status.FromError finds in it, if any, and its view as an errors.Error,
    if its dynamic type implements that interface. A dynamic type may
    implement both. *)
Record error : Type := {
  error_Error : string;
  error_concrete : concrete;
  error_GRPCStatus : option Status;
  error_as_errors_Error : option errors_Error
}.

Definition plain_error (c : concrete) (text : string) : error :=
  {| error_Error := text; error_concrete := c;
     error_GRPCStatus := None; error_as_errors_Error := None |}.

Definition io_EOF : error := plain_error is_io_EOF "EOF".

Definition io_ErrUnexpectedEOF : error :=
  plain_error is_io_ErrUnexpectedEOF "unexpected EOF".

Definition kitjwt_ErrTokenContextMissing : error :=
  plain_error is_kitjwt_ErrTokenContextMissing
    "token up for parsing was not passed through the context".

(** fmt.Errorf / errors.New of the standard library, already formatted. *)
Definition fmt_Errorf (text : string) : error := plain_error is_other text.

Definition json_SyntaxError (msg : string) : error :=
  plain_error is_json_SyntaxError msg.

(** [*json.UnmarshalTypeError] with its Error() text. *)
Definition json_UnmarshalTypeError (value struct field type : string) : error :=
  plain_error is_json_UnmarshalTypeError
    (if (String.eqb struct "" && String.eqb field "")%bool
     then "json: cannot unmarshal " +:+ value +:+ " into Go value of type " +:+ type
     else "json: cannot unmarshal " +:+ value +:+ " into Go struct field "
          +:+ struct +:+ "." +:+ field +:+ " of type " +:+ type).

(** codes.Unknown *)
Definition codes_Unknown : Z := 2.

(** status.FromError on a non-nil error: the status the error carries
    (through a GRPCStatus method) and true, otherwise the status
    (Unknown, err.Error()) and false. *)
Definition status_FromError (err : error) : Status * bool :=
  match error_GRPCStatus err with
  | Some s => (s, true)
  | None =>
    ({| Status_Code := codes_Unknown; Status_Message := error_Error err |}, false)
  end.

(* ===================================================================== *)
(** ** package encoding/json *)
(* ===================================================================== *)

(** A JSON document. A number keeps the text of its literal, a string holds
    the Go string the decoder produces for it. *)
Inductive json : Type :=
| JNull
| JBool (b : bool)
| JNumber (lit : string)
| JString (s : string)
| JArray (items : list json)
| JObject (members : list (string * json)).

(** What a reader finds in a message body: well-formed documents up to the
    end of the stream, a syntax error, a stream that ends inside a
    document, or a Read that fails with an error of its own (a timeout, a
    broken chunk) before a document is complete. *)
Inductive Body : Type :=
| body_docs (docs : list json)
| body_syntax (msg : string)
| body_truncated
| body_read_error (err : error).

(** The encoder writes a Go string coerced to valid UTF-8. *)
Definition json_string (s : string) : json := JString (ToValidUTF8 s).

Definition json_int (z : Z) : json := JNumber (FormatInt z).

(** A slice encodes as [null] when nil and as an array otherwise. *)
Definition json_slice {A : Type} (f : A -> json) (s : slice A) : json :=
  match s with
  | None => JNull
  | Some l => JArray (map f l)
  end.

(** The Value of an UnmarshalTypeError for a document that does not fit. *)
Definition describe (v : json) : string :=
  match v with
  | JNull => "null"
  | JBool _ => "bool"
  | JNumber _ => "number"
  | JString _ => "string"
  | JArray _ => "array"
  | JObject _ => "object"
  end.

(** Member names are matched with struct fields up to case folding; next
    to ASCII letters, U+017F folds to s and U+212A to k. *)
Definition lower (c : ascii) : ascii :=
  if in_range 65 90 c then ascii_of_N (byte_of c + 32) else c.

Fixpoint foldName (s : string) : string :=
  match s with
  | EmptyString => EmptyString
  | String c0 t0 =>
    match t0 with
    | String c1 t1 =>
      if (N.eqb (byte_of c0) 197 && N.eqb (byte_of c1) 191)%bool
      then String "s" (foldName t1)
      else
        match t1 with
        | String c2 t2 =>
          if (N.eqb (byte_of c0) 226 && N.eqb (byte_of c1) 132
              && N.eqb (byte_of c2) 170)%bool
          then String "k" (foldName t2)
          else String (lower c0) (foldName t0)
        | EmptyString => String (lower c0) (foldName t0)
        end
    | EmptyString => String (lower c0) EmptyString
    end
  end.

(** Only the first type error of a decode is kept. *)
Definition saveError (saved : option error) (e : option error) : option error :=
  match saved with
  | Some _ => saved
  | None => e
  end.

(** Storing a document into a field of type string. *)
Definition store_string (struct field : string) (v : json) (cur : string)
  : string * option error :=
  match v with
  | JString s => (s, None)
  | JNull => (cur, None)
  | _ => (cur, Some (json_UnmarshalTypeError (describe v) struct field "string"))
  end.

(** Storing a document into a field of type int64. *)
Definition store_int64 (struct field : string) (v : json) (cur : Z)
  : Z * option error :=
  match v with
  | JNumber lit =>
    match ParseInt lit with
    | Some z => (z, None)
    | None =>
      (cur, Some (json_UnmarshalTypeError ("number " +:+ lit) struct field "int64"))
    end
  | JNull => (cur, None)
  | _ => (cur, Some (json_UnmarshalTypeError (describe v) struct field "int64"))
  end.

(** Decoding into a struct with one exported field, tagged [key]. *)
Definition object_member {T : Type} (key : string)
    (store : json -> T -> T * option error)
    (st : T * option error) (kv : string * json) : T * option error :=
  if String.eqb (foldName (fst kv)) (foldName key)
  then
    let r := store (snd kv) (fst st) in
    (fst r, saveError (snd st) (snd r))
  else st.

Definition unmarshal_struct {T : Type} (type key : string)
    (store : json -> T -> T * option error) (zero : T) (v : json)
  : T * option error :=
  match v with
  | JObject members => fold_left (object_member key store) members (zero, None)
  | JNull => (zero, None)
  | _ => (zero, Some (json_UnmarshalTypeError (describe v) "" "" type))
  end.

(** json.NewDecoder(body).Decode(&x) with x at its zero value: reads the
    next document of the body and stores it into x; an error of reading the
    body is handed back as it is. *)
Definition Decode {T : Type} (unmarshal : T -> json -> T * option error)
    (zero : T) (b : Body) : T * option error :=
  match b with
  | body_docs [] => (zero, Some io_EOF)
  | body_docs (v :: _) => unmarshal zero v
  | body_syntax msg => (zero, Some (json_SyntaxError msg))
  | body_truncated => (zero, Some io_ErrUnexpectedEOF)
  | body_read_error err => (zero, Some err)
  end.

(* ===================================================================== *)
(** ** package net/http *)
(* ===================================================================== *)

Definition StatusOK : Z := 200.
Definition StatusNoContent : Z := 204.
Definition StatusBadRequest : Z := 400.
Definition StatusUnauthorized : Z := 401.
Definition StatusInternalServerError : Z := 500.

(** checkWriteHeaderCode: WriteHeader panics on a code outside 100..999. *)
Definition checkWriteHeaderCode (code : Z) : bool :=
  ((100 <=? code) && (code <=? 999))%bool.


(** The bytes allowed in a header field name (RFC 7230 token). *)
Definition validHeaderFieldByte (c : ascii) : bool :=
  (in_range 48 57 c || in_range 65 90 c || in_range 97 122 c
   || existsb (Ascii.eqb c) (list_ascii_of_string "!#$%&'*+-.^_`|~"))%bool.

Fixpoint canonical_from (upper : bool) (s : string) : string :=
  match s with
  | EmptyString => EmptyString
  | String c s' =>
    let c' :=
      if upper
      then (if in_range 97 122 c then ascii_of_N (byte_of c - 32) else c)
      else lower c in
    String c' (canonical_from (Ascii.eqb c "-") s')
  end.

(** textproto.CanonicalMIMEHeaderKey: a key with a byte outside the token
    set is returned as it is. *)
Definition CanonicalMIMEHeaderKey (s : string) : string :=
  if forallb validHeaderFieldByte (list_ascii_of_string s)
  then canonical_from true s
  else s.

(** http.Header *)
Definition Header_Get (h : gmap string (list string)) (key : string) : string :=
  match h !! CanonicalMIMEHeaderKey key with
  | Some (v :: _) => v
  | _ => ""
  end.

Definition Header_Set (h : gmap string (list string)) (key value : string)
  : gmap string (list string) :=
  <[CanonicalMIMEHeaderKey key := [value]]> h.

Definition Header_Add (h : gmap string (list string)) (key value : string)
  : gmap string (list string) :=
  <[CanonicalMIMEHeaderKey key :=
      (default [] (h !! CanonicalMIMEHeaderKey key) ++ [value])%list]> h.

(** An http.ResponseWriter that records what is done to it, in the manner
    of httptest.ResponseRecorder: the header map, the status line once
    written together with the headers sent with it, and the documents
    written to the body. *)
Record ResponseWriter : Type := {
  rw_Header : gmap string (list string);
  rw_Code : option Z;
  rw_sent : gmap string (list string);
  rw_Body : list json
}.

Definition NewRecorder : ResponseWriter :=
  {| rw_Header := ∅; rw_Code := None; rw_sent := ∅; rw_Body := [] |}.

Definition with_Header (w : ResponseWriter) (h : gmap string (list string))
  : ResponseWriter :=
  {| rw_Header := h; rw_Code := rw_Code w; rw_sent := rw_sent w;
     rw_Body := rw_Body w |}.

(** w.WriteHeader(code): only the first call has an effect. The code of a
    first call is taken to pass [checkWriteHeaderCode]; the writer panics
    on any other. *)
Definition WriteHeader (w : ResponseWriter) (code : Z) : ResponseWriter :=
  match rw_Code w with
  | Some _ => w
  | None =>
    {| rw_Header := rw_Header w; rw_Code := Some code;
       rw_sent := rw_Header w; rw_Body := rw_Body w |}
  end.

(** w.Write of one encoded document; an implicit WriteHeader(200) comes
    first when no status line was written. The document is recorded as
    written, as under every status line that passes
    [bodyAllowedForStatus]; under another a server sends nothing. *)
Definition Write (w : ResponseWriter) (doc : json) : ResponseWriter :=
  let w := WriteHeader w StatusOK in
  {| rw_Header := rw_Header w; rw_Code := rw_Code w;
     rw_sent := rw_sent w; rw_Body := (rw_Body w ++ [doc])%list |}.

(** json.NewEncoder(w).Encode(v), given the encoding of v or the error that
    marshalling v runs into: nothing is written in the second case. *)
Definition Encode (w : ResponseWriter) (v : json + error)
  : ResponseWriter * option error :=
  match v with
  | inl doc => (Write w doc, None)
  | inr err => (w, Some err)
  end.

(** The http.Response a client receives. *)
Record Response : Type := {
  Response_StatusCode : Z;
  Response_Header : gmap string (list string);
  Response_Body : Body
}.

(** What a recorded exchange looks like from the client. *)
Definition Result (w : ResponseWriter) : Response :=
  match rw_Code w with
  | Some code =>
    {| Response_StatusCode := code; Response_Header := rw_sent w;
       Response_Body := body_docs (rw_Body w) |}
  | None =>
    {| Response_StatusCode := StatusOK; Response_Header := rw_Header w;
       Response_Body := body_docs (rw_Body w) |}
  end.

(* ===================================================================== *)
(** ** package net/url *)
(* ===================================================================== *)

Record Userinfo : Type := {
  Userinfo_username : string;
  Userinfo_password : string;
  Userinfo_passwordSet : bool
}.

Record URL : Type := {
  URL_Scheme : string;
  URL_Opaque : string;
  URL_User : option Userinfo;
  URL_Host : string;
  URL_Path : string;
  URL_RawPath : string;
  URL_ForceQuery : bool;
  URL_RawQuery : string;
  URL_Fragment : string;
  URL_RawFragment : string
}.

(** The store of URL objects; a [*url.URL] is an address in it. *)
Definition ptr : Type := nat.

Definition new (h : gmap nat URL) (u : URL) : ptr * gmap nat URL :=
  let p := fresh (dom h) in (p, <[p := u]> h).

(** *** A parser for plain URLs

    url.Parse is a parameter of the client constructor below. To run the
    constructor on concrete instance strings, [url_Parse_plain] follows
    url.Parse on the strings made of letters, digits and [. - _ : /] only
    (no query, fragment, user info, escapes or bracketed hosts); any other
    string is refused, one with a control character for the reason url.Parse
    gives. The error texts are those of the cause, without the "parse"
    prefix of *url.Error. *)

Definition is_letter (c : ascii) : bool := (in_range 65 90 c || in_range 97 122 c)%bool.
Definition is_digit (c : ascii) : bool := in_range 48 57 c.
Definition is_ctl (c : ascii) : bool := (N.ltb (byte_of c) 32 || N.eqb (byte_of c) 127)%bool.

Definition is_plain (c : ascii) : bool :=
  (is_letter c || is_digit c
   || existsb (Ascii.eqb c) (list_ascii_of_string ".-_:/"))%bool.

Fixpoint string_forall (p : ascii -> bool) (s : string) : bool :=
  match s with
  | EmptyString => true
  | String c s' => (p c && string_forall p s')%bool
  end.

Fixpoint string_exists (p : ascii -> bool) (s : string) : bool :=
  match s with
  | EmptyString => false
  | String c s' => (p c || string_exists p s')%bool
  end.

Fixpoint string_map (f : ascii -> ascii) (s : string) : string :=
  match s with
  | EmptyString => EmptyString
  | String c s' => String (f c) (string_map f s')
  end.

(** The text before the first [sep], and the text from that [sep] on. *)
Fixpoint break_at (sep : ascii) (s : string) : string * string :=
  match s with
  | EmptyString => (EmptyString, EmptyString)
  | String c s' =>
    if Ascii.eqb c sep then (EmptyString, s)
    else let r := break_at sep s' in (String c (fst r), snd r)
  end.

(** The text after the last [sep], if [sep] occurs. *)
Fixpoint after_last (sep : ascii) (s : string) : option string :=
  match s with
  | EmptyString => None
  | String c s' =>
    match after_last sep s' with
    | Some r => Some r
    | None => if Ascii.eqb c sep then Some s' else None
    end
  end.

(** getScheme: the scheme before the first colon, when the text up to
    there is a letter followed by letters, digits, [+], [-] or [.]. *)
Fixpoint getScheme_loop (first : bool) (seen rest raw : string)
  : string * string + error :=
  match rest with
  | EmptyString => inl (EmptyString, raw)
  | String c rest' =>
    if is_letter c then getScheme_loop false (seen +:+ String c "") rest' raw
    else if (is_digit c || existsb (Ascii.eqb c) (list_ascii_of_string "+-."))%bool
    then (if first then inl (EmptyString, raw)
          else getScheme_loop false (seen +:+ String c "") rest' raw)
    else if Ascii.eqb c ":"
    then (if first then inr (fmt_Errorf "missing protocol scheme")
          else inl (seen, rest'))
    else inl (EmptyString, raw)
  end.

Definition getScheme (rawURL : string) : string * string + error :=
  getScheme_loop true "" rawURL rawURL.

Definition empty_URL : URL :=
  {| URL_Scheme := ""; URL_Opaque := ""; URL_User := None; URL_Host := "";
     URL_Path := ""; URL_RawPath := ""; URL_ForceQuery := false;
     URL_RawQuery := ""; URL_Fragment := ""; URL_RawFragment := "" |}.

Definition url_Parse_plain (rawURL : string) : URL + error :=
  if string_exists is_ctl rawURL
  then inr (fmt_Errorf "net/url: invalid control character in URL")
  else if negb (string_forall is_plain rawURL)
  then inr (fmt_Errorf "not a plain URL")
  else
    match getScheme rawURL with
    | inr err => inr err
    | inl (scheme, rest) =>
      let scheme := string_map lower scheme in
      if (negb (HasPrefix rest "/") && negb (String.eqb scheme ""))%bool
      then inl {| URL_Scheme := scheme; URL_Opaque := rest; URL_User := None;
                  URL_Host := ""; URL_Path := ""; URL_RawPath := "";
                  URL_ForceQuery := false; URL_RawQuery := "";
                  URL_Fragment := ""; URL_RawFragment := "" |}
      else if (negb (HasPrefix rest "/")
               && string_exists (Ascii.eqb ":") (fst (break_at "/" rest)))%bool
      then inr (fmt_Errorf "first path segment in URL cannot contain colon")
      else if (HasPrefix rest "//"
               && (negb (String.eqb scheme "") || negb (HasPrefix rest "///")))%bool
      then
        let authority := fst (break_at "/" (String.substring 2 (String.length rest - 2) rest)) in
        let path := snd (break_at "/" (String.substring 2 (String.length rest - 2) rest)) in
        match after_last ":" authority with
        | Some port =>
          if string_forall is_digit port
          then inl {| URL_Scheme := scheme; URL_Opaque := ""; URL_User := None;
                      URL_Host := authority; URL_Path := path; URL_RawPath := "";
                      URL_ForceQuery := false; URL_RawQuery := "";
                      URL_Fragment := ""; URL_RawFragment := "" |}
          else inr (fmt_Errorf "invalid port after host")
        | None =>
          inl {| URL_Scheme := scheme; URL_Opaque := ""; URL_User := None;
                 URL_Host := authority; URL_Path := path; URL_RawPath := "";
                 URL_ForceQuery := false; URL_RawQuery := "";
                 URL_Fragment := ""; URL_RawFragment := "" |}
        end
      else inl {| URL_Scheme := scheme; URL_Opaque := ""; URL_User := None;
                  URL_Host := ""; URL_Path := rest; URL_RawPath := "";
                  URL_ForceQuery := false; URL_RawQuery := "";
                  URL_Fragment := ""; URL_RawFragment := "" |}
    end.

(** copyURL (http.go, 158-162): [next := *base] copies the object behind
    [base], [next.Path = path] updates the copy, and the address of the
    copy is returned. Dereferencing an address that holds no object
    panics. *)
Definition copyURL (base : ptr) (path : string) (h : gmap nat URL)
  : outcome (ptr * gmap nat URL) :=
  match h !! base with
  | None => Panics "invalid memory address or nil pointer dereference"
  | Some next =>
    let next :=
      {| URL_Scheme := URL_Scheme next; URL_Opaque := URL_Opaque next;
         URL_User := URL_User next; URL_Host := URL_Host next;
         URL_Path := path; URL_RawPath := URL_RawPath next;
         URL_ForceQuery := URL_ForceQuery next; URL_RawQuery := URL_RawQuery next;
         URL_Fragment := URL_Fragment next; URL_RawFragment := URL_RawFragment next |} in
    Returns (new h next)
  end.

(* ===================================================================== *)
(** ** package responses (internal/pkg/responses) *)
(* ===================================================================== *)

Record ErrorWrapper : Type := {
  ErrorWrapper_Error : string
}.

Record ErrorResItem : Type := {
  ErrorResItem_Code : Z;
  ErrorResItem_Message : string;
  ErrorResItem_Errors : slice errors_Errors
}.

Record ErrorRes : Type := {
  ErrorRes_Error : ErrorResItem
}.

(** Decoding into an ErrorWrapper: one string field tagged ["error"]. *)
Definition unmarshal_ErrorWrapper (w : ErrorWrapper) (v : json)
  : ErrorWrapper * option error :=
  unmarshal_struct "responses.ErrorWrapper" "error"
    (fun v w =>
       let r := store_string "ErrorWrapper" "error" v (ErrorWrapper_Error w) in
       ({| ErrorWrapper_Error := fst r |}, snd r))
    w v.

(** Modelled from the spec: the encoding of errors.Errors, whose declaration
    is not among the sources; the wire shape of the spec,
    [{"message": "<string>", ...}], with the optional field after it. *)
Definition json_Errors (e : errors_Errors) : json :=
  JObject ([("message", json_string (Errors_Message e))]
           ++ match Errors_Field e with
              | Some f => [("field", json_string f)]
              | None => []
              end)%list.

Definition json_ErrorResItem (i : ErrorResItem) : json :=
  JObject [("code", json_int (ErrorResItem_Code i));
           ("message", json_string (ErrorResItem_Message i));
           ("errors", json_slice json_Errors (ErrorResItem_Errors i))].

Definition json_ErrorRes (r : ErrorRes) : json :=
  JObject [("error", json_ErrorResItem (ErrorRes_Error r))].

(* ===================================================================== *)
(** ** package endpoints (internal/app/add/endpoints) *)
(* ===================================================================== *)

(** Modelled from the spec: endpoints.SumResponse is not among the sources.
    The spec gives Sum one numeric result and shows the success body
    [{"res":5}]: a plain record with one 64-bit integer field tagged
    ["res"] and none of the optional response capabilities. *)
Record SumResponse : Type := {
  SumResponse_Res : Z
}.

(** Modelled from the spec: endpoints.ConcatResponse is not among the
    sources. The spec gives Concat one string result and shows the success
    body [{"res":"foobar"}]. *)
Record ConcatResponse : Type := {
  ConcatResponse_Res : string
}.

Definition json_SumResponse (r : SumResponse) : json :=
  JObject [("res", json_int (SumResponse_Res r))].

Definition json_ConcatResponse (r : ConcatResponse) : json :=
  JObject [("res", json_string (ConcatResponse_Res r))].

Definition unmarshal_SumResponse (r : SumResponse) (v : json)
  : SumResponse * option error :=
  unmarshal_struct "endpoints.SumResponse" "res"
    (fun v r =>
       let s := store_int64 "SumResponse" "res" v (SumResponse_Res r) in
       ({| SumResponse_Res := fst s |}, snd s))
    r v.

Definition unmarshal_ConcatResponse (r : ConcatResponse) (v : json)
  : ConcatResponse * option error :=
  unmarshal_struct "endpoints.ConcatResponse" "res"
    (fun v r =>
       let s := store_string "ConcatResponse" "res" v (ConcatResponse_Res r) in
       ({| ConcatResponse_Res := fst s |}, snd s))
    r v.

(** The two operations of the service. *)
Inductive operation : Type := Sum | Concat.

(** A value handed to the response encoder as [interface{}]: the optional
    capabilities the encoder asks for (httptransport.Headerer,
    httptransport.StatusCoder, responses.Responser, the last one already
    encoded) and the JSON encoding of the value itself. *)
Record response : Type := {
  response_Headers : option (list (string * list string));
  response_StatusCode : option Z;
  response_Response : option (json + error);
  response_json : json + error
}.

Definition response_of_SumResponse (r : SumResponse) : response :=
  {| response_Headers := None; response_StatusCode := None;
     response_Response := None; response_json := inl (json_SumResponse r) |}.

Definition response_of_ConcatResponse (r : ConcatResponse) : response :=
  {| response_Headers := None; response_StatusCode := None;
     response_Response := None; response_json := inl (json_ConcatResponse r) |}.

(* ===================================================================== *)
(** ** Parts of the repository that are not among the sources *)
(* ===================================================================== *)

(** Modelled from the spec: errors.FromError (internal/pkg/errors) is not
    among the sources. The spec has it parse an error string into "a
    single-element sequence whose message is the original string". *)
Definition FromError_spec (s : string) : slice errors_Errors :=
  Some [ {| Errors_Field := None; Errors_Message := s |} ].

(** Modelled from the spec: errors.New (internal/pkg/errors) is not among
    the sources. The spec's domain error carries "a human message plus
    zero-or-more structured sub-errors"; a new one has the message and no
    sub-error. *)
Definition errors_New_spec (text : string) : error :=
  {| error_Error := text; error_concrete := is_other;
     error_GRPCStatus := None;
     error_as_errors_Error := Some {| Msg := text; Errors := None |} |}.

(** Modelled from the spec: HTTPStatusFromCode (package transports) is not
    among the sources. Only the entries the spec names are listed
    (InvalidArgument, NotFound, PermissionDenied, Unauthenticated,
    Unknown, Internal); any other code takes the default the spec gives for
    codes outside the table. *)
Definition HTTPStatusFromCode_spec (c : Z) : Z :=
  if c =? 3 then 400
  else if c =? 5 then 404
  else if c =? 7 then 403
  else if c =? 16 then 401
  else if c =? 2 then 500
  else if c =? 13 then 500
  else 500.

(** The spec's "bare host[:port]": a non-empty run of letters, digits, dots
    and hyphens, optionally followed by a colon and a run of digits. *)
Definition is_host_port (s : string) : bool :=
  let host := fst (break_at ":" s) in
  let port := snd (break_at ":" s) in
  (negb (String.eqb host "")
   && string_forall (fun c => is_letter c || is_digit c
                              || Ascii.eqb c "." || Ascii.eqb c "-") host
   && match port with
      | EmptyString => true
      | String _ digits => negb (String.eqb digits "") && string_forall is_digit digits
      end)%bool.

(* ===================================================================== *)
(** ** package transports (internal/app/add/transports/http.go) *)
(* ===================================================================== *)

Definition contentType : string := "application/json".

(** What the mux binds a route to: a go-kit server for one endpoint, or the
    metrics handler. The decoders, encoders, options and tracing wrappers
    attached to a server or client do not change the method or the path
    and are left out. *)
Inductive handler : Type :=
| kit_Server (op : operation)
| promhttp_Handler.

Record route : Type := {
  route_method : string;
  route_path : string;
  route_handler : handler
}.

(** NewHTTPHandler (http.go, 50-71): the routes registered on the mux, in
    the order of registration. *)
Definition NewHTTPHandler : list route :=
  [ {| route_method := "POST"; route_path := "/api/add/sum";
       route_handler := kit_Server Sum |};
    {| route_method := "POST"; route_path := "/api/add/concat";
       route_handler := kit_Server Concat |};
    {| route_method := "GET"; route_path := "/metrics";
       route_handler := promhttp_Handler |} ].

(** The handler the mux serves a request with: the spec fixes the routing
    as case-sensitive and exact on method and path. *)
Definition mux_lookup (m : list route) (method path : string) : option handler :=
  route_handler <$>
    find (fun r => (String.eqb (route_method r) method
                    && String.eqb (route_path r) path)%bool) m.

(** An httptransport.Client as the constructor builds it: method, target
    URL and response decoder. *)
Record Client (Resp : Type) : Type := {
  Client_method : string;
  Client_tgt : ptr;
  Client_dec : Response -> option Resp * option error
}.
Arguments Client_method {Resp} c.
Arguments Client_tgt {Resp} c.
Arguments Client_dec {Resp} c.

Record Endpoints : Type := {
  SumEndpoint : Client SumResponse;
  ConcatEndpoint : Client ConcatResponse
}.

Section Transports.

(** errors.FromError, errors.New and HTTPStatusFromCode belong to the
    repository but are not among the sources; url.Parse is the library's.
    The transport code is embedded over any implementation of them. *)
Variable FromError : string -> slice errors_Errors.
Variable errors_New : string -> error.
Variable HTTPStatusFromCode : Z -> Z.
Variable url_Parse : string -> URL + error.

(** JSONErrorDecoder (http.go, 36-46) *)
Definition JSONErrorDecoder (r : Response) : error :=
  let contentType := Header_Get (Response_Header r) "Content-Type" in
  if negb (Contains contentType "application/json")
  then fmt_Errorf ("expected JSON formatted error, got Content-Type " +:+ contentType)
  else
    let d := Decode unmarshal_ErrorWrapper {| ErrorWrapper_Error := "" |}
               (Response_Body r) in
    match snd d with
    | Some err => err
    | None => errors_New (ErrorWrapper_Error (fst d))
    end.

(** decodeHTTPSumResponse (http.go, 179-186); the first component is the
    [interface{}] result, [None] for nil. *)
Definition decodeHTTPSumResponse (r : Response) : option SumResponse * option error :=
  if negb (Response_StatusCode r =? StatusOK)
  then (None, Some (JSONErrorDecoder r))
  else
    let d := Decode unmarshal_SumResponse {| SumResponse_Res := 0 |}
               (Response_Body r) in
    (Some (fst d), snd d).

(** decodeHTTPConcatResponse (http.go, 203-210) *)
Definition decodeHTTPConcatResponse (r : Response)
  : option ConcatResponse * option error :=
  if negb (Response_StatusCode r =? StatusOK)
  then (None, Some (JSONErrorDecoder r))
  else
    let d := Decode unmarshal_ConcatResponse {| ConcatResponse_Res := "" |}
               (Response_Body r) in
    (Some (fst d), snd d).

(** NewHTTPClient (http.go, 93-155). The result pairs the service with the
    error, as the Go function does; the store of URL objects is threaded
    through. *)
Definition NewHTTPClient (instance : string) (h : gmap nat URL)
  : outcome ((option Endpoints * option error) * gmap nat URL) :=
  let instance :=
    if negb (HasPrefix instance "http") then "http://" +:+ instance else instance in
  match url_Parse instance with
  | inr err => Returns ((None, Some err), h)
  | inl parsed =>
    let u := fst (new h parsed) in
    let h := snd (new h parsed) in
    match copyURL u "/sum" h with
    | Panics reason => Panics reason
    | Returns (tgt, h) =>
      let sumEndpoint :=
        {| Client_method := "POST"; Client_tgt := tgt;
           Client_dec := decodeHTTPSumResponse |} in
      match copyURL u "/concat" h with
      | Panics reason => Panics reason
      | Returns (tgt, h) =>
        let concatEndpoint :=
          {| Client_method := "POST"; Client_tgt := tgt;
             Client_dec := decodeHTTPConcatResponse |} in
        Returns ((Some {| SumEndpoint := sumEndpoint;
                          ConcatEndpoint := concatEndpoint |}, None), h)
      end
    end
  end.

(** httpEncodeError (http.go, 212-253) *)
Definition httpEncodeError (err : error) (w : ResponseWriter) : outcome ResponseWriter :=
  let code := StatusInternalServerError in
  let message := "" in
  let errs : slice errors_Errors := None in
  let w := with_Header w (Header_Set (rw_Header w) "Content-Type" contentType) in
  let translated : outcome (Z * string * slice errors_Errors) :=
    if negb (snd (status_FromError err))
    then
      (* HTTP *)
      match error_as_errors_Error err with
      | Some errorVal =>
        if negb (String.eqb (Msg errorVal) "")
        then Returns (code, Msg errorVal, Errors errorVal)
        else Returns (code, message, errs)
      | None =>
        let code :=
          match error_concrete err with
          | is_io_ErrUnexpectedEOF | is_io_EOF => StatusBadRequest
          | is_kitjwt_ErrTokenContextMissing => StatusUnauthorized
          | is_json_SyntaxError | is_json_UnmarshalTypeError => StatusBadRequest
          | is_other => code
          end in
        let errs := FromError (error_Error err) in
        match index0 errs with
        | Returns first => Returns (code, Errors_Message first, errs)
        | Panics reason => Panics reason
        end
      end
    else
      (* GRPC *)
      let s := fst (status_FromError err) in
      let code := HTTPStatusFromCode (Status_Code s) in
      let errs := FromError (Status_Message s) in
      match index0 errs with
      | Returns first => Returns (code, Errors_Message first, errs)
      | Panics reason => Panics reason
      end in
  match translated with
  | Panics reason => Panics reason
  | Returns (code, message, errs) =>
    let w := WriteHeader w code in
    Returns (fst (Encode w (inl (json_ErrorRes
      {| ErrorRes_Error :=
           {| ErrorResItem_Code := code; ErrorResItem_Message := message;
              ErrorResItem_Errors := errs |} |}))))
  end.

(** encodeJSONResponse (http.go, 255-278) *)
Definition encodeJSONResponse (w : ResponseWriter) (response : response)
  : ResponseWriter * option error :=
  let w := with_Header w
             (Header_Set (rw_Header w) "Content-Type" "application/json; charset=utf-8") in
  let w :=
    match response_Headers response with
    | Some headers =>
      fold_left
        (fun w kv =>
           fold_left (fun w v => with_Header w (Header_Add (rw_Header w) (fst kv) v))
                     (snd kv) w)
        headers w
    | None => w
    end in
  let code :=
    match response_StatusCode response with
    | Some sc => sc
    | None => StatusOK
    end in
  let w := WriteHeader w code in
  if code =? StatusNoContent then (w, None)
  else
    match response_Response response with
    | Some ar => Encode w ar
    | None => Encode w (response_json response)
    end.

End Transports.

(* ===================================================================== *)
(** ** The statements of the specification *)
(* ===================================================================== *)

(** The output contract of the translator: the writer after the
    Content-Type header was set, the status line of the envelope's code was
    written, and the envelope was serialised to the body. *)
Definition written (w : ResponseWriter) (env : ErrorRes) : ResponseWriter :=
  Write
    (WriteHeader
       (with_Header w (Header_Set (rw_Header w) "Content-Type" contentType))
       (ErrorResItem_Code (ErrorRes_Error env)))
    (json_ErrorRes env).

Definition envelope (code : Z) (message : string) (errs : slice errors_Errors)
  : ErrorRes :=
  {| ErrorRes_Error :=
       {| ErrorResItem_Code := code; ErrorResItem_Message := message;
          ErrorResItem_Errors := errs |} |}.

(** Step 3 and the default of step 4 of the spec's decision procedure. *)
Definition transport_status (c : concrete) : Z :=
  match c with
  | is_io_ErrUnexpectedEOF => 400
  | is_io_EOF => 400
  | is_kitjwt_ErrTokenContextMissing => 401
  | is_json_SyntaxError => 400
  | is_json_UnmarshalTypeError => 400
  | is_other => 500
  end.

(** Whether steps 1-2 of the decision procedure set the message: step 1
    applies to an error with an RPC status, step 2 sets the message of a
    domain error when that message is not empty. *)
Definition message_set_by_steps_1_2 (err : error) : bool :=
  match error_GRPCStatus err with
  | Some _ => true
  | None =>
    match error_as_errors_Error err with
    | Some d => negb (String.eqb (Msg d) "")
    | None => false
    end
  end.

(** What the exchange that follows an encoded response looks like to the
    client decoders. *)
Definition served (r : response) : Response :=
  Result (fst (encodeJSONResponse NewRecorder r)).

(** The string that reaches url.Parse. *)
Definition parsed_instance (instance : string) : string :=
  if HasPrefix instance "http" then instance else "http://" +:+ instance.

(** The URL of a service instance at localhost:8080. *)
Definition localhost_URL : URL :=
  {| URL_Scheme := "http"; URL_Opaque := ""; URL_User := None;
     URL_Host := "localhost:8080"; URL_Path := ""; URL_RawPath := "";
     URL_ForceQuery := false; URL_RawQuery := "";
     URL_Fragment := ""; URL_RawFragment := "" |}.

(** The Sum endpoint's target in the result of the client constructor. *)
Definition sum_target
    (o : outcome ((option Endpoints * option error) * gmap nat URL)) : option URL :=
  match o with
  | Returns ((Some e, _), h) => h !! Client_tgt (SumEndpoint e)
  | _ => None
  end.

(* ===================================================================== *)
(** ** The request side of the transport *)
(* ===================================================================== *)

(** Decoding into a struct with several exported fields, each with its tag
    and the way a document is stored into it. A member is matched with the
    field whose tag equals its name up to case folding (the tags used here
    stay distinct under folding, so the exact match the decoder tries first
    finds the same field). *)
Definition fields_member {T : Type}
    (fields : list (string * (json -> T -> T * option error)))
    (st : T * option error) (kv : string * json) : T * option error :=
  match find (fun f => String.eqb (foldName (fst kv)) (foldName (fst f))) fields with
  | Some f =>
    let r := snd f (snd kv) (fst st) in
    (fst r, saveError (snd st) (snd r))
  | None => st
  end.

Definition unmarshal_fields {T : Type} (type : string)
    (fields : list (string * (json -> T -> T * option error)))
    (zero : T) (v : json) : T * option error :=
  match v with
  | JObject members => fold_left (fields_member fields) members (zero, None)
  | JNull => (zero, None)
  | _ => (zero, Some (json_UnmarshalTypeError (describe v) "" "" type))
  end.

(** Modelled from the spec: endpoints.SumRequest is not among the sources.
    The spec gives Sum two numeric operands and shows the request body
    [{"a":2,"b":3}]: two 64-bit integer fields tagged ["a"] and ["b"]. *)
Record SumRequest : Type := {
  SumRequest_A : Z;
  SumRequest_B : Z
}.




Definition SumRequest_fields
  : list (string * (json -> SumRequest -> SumRequest * option error)) :=
  [ ("a", fun v r =>
            let s := store_int64 "SumRequest" "a" v (SumRequest_A r) in
            ({| SumRequest_A := fst s; SumRequest_B := SumRequest_B r |}, snd s));
    ("b", fun v r =>
            let s := store_int64 "SumRequest" "b" v (SumRequest_B r) in
            ({| SumRequest_A := SumRequest_A r; SumRequest_B := fst s |}, snd s)) ].


Definition unmarshal_SumRequest (r : SumRequest) (v : json)
  : SumRequest * option error :=
  unmarshal_fields "endpoints.SumRequest" SumRequest_fields r v.


(** The encoding of a responses.ErrorWrapper: one member tagged ["error"]. *)
Definition json_ErrorWrapper (w : ErrorWrapper) : json :=
  JObject [("error", json_string (ErrorWrapper_Error w))].

(** The parts of an http.Request the transport reads or writes. *)
Record Request : Type := {
  Request_Method : string;
  Request_Header : gmap string (list string);
  Request_Body : Body
}.

(** decodeHTTPSumRequest (http.go, 75-79): the request is returned next to
    the decoder's error, whatever the error is. *)
Definition decodeHTTPSumRequest (r : Request) : SumRequest * option error :=
  Decode unmarshal_SumRequest {| SumRequest_A := 0; SumRequest_B := 0 |}
    (Request_Body r).





(** A URL with its Path replaced. *)
Definition URL_with_Path (u : URL) (path : string) : URL :=
  {| URL_Scheme := URL_Scheme u; URL_Opaque := URL_Opaque u;
     URL_User := URL_User u; URL_Host := URL_Host u;
     URL_Path := path; URL_RawPath := URL_RawPath u;
     URL_ForceQuery := URL_ForceQuery u; URL_RawQuery := URL_RawQuery u;
     URL_Fragment := URL_Fragment u; URL_RawFragment := URL_RawFragment u |}.

(** The code a response value asks for: its own when it is a StatusCoder,
    200 otherwise. *)
Definition response_code (r : response) : Z :=
  match response_StatusCode r with
  | Some sc => sc
  | None => StatusOK
  end.

(** The headers of a Headerer added to the writer, in the order the map is
    ranged over. *)
Definition add_headers (headers : list (string * list string)) (w : ResponseWriter)
  : ResponseWriter :=
  fold_left
    (fun w kv =>
       fold_left (fun w v => with_Header w (Header_Add (rw_Header w) (fst kv) v))
                 (snd kv) w)
    headers w.

(** The writer of the response encoder when it reaches WriteHeader. *)
Definition prepared (w : ResponseWriter) (r : response) : ResponseWriter :=
  match response_Headers r with
  | Some headers =>
    add_headers headers
      (with_Header w
         (Header_Set (rw_Header w) "Content-Type" "application/json; charset=utf-8"))
  | None =>
    with_Header w
      (Header_Set (rw_Header w) "Content-Type" "application/json; charset=utf-8")
  end.

(** What the response encoder hands to the JSON encoder: the encoding of
    Response() for a Responser, of the value itself otherwise. *)
Definition response_document (r : response) : json + error :=
  match response_Response r with
  | Some ar => ar
  | None => response_json r
  end.

(** A response with a JSON Content-Type. *)
Definition json_Response (code : Z) (docs : list json) : Response :=
  {| Response_StatusCode := code;
     Response_Header := Header_Set ∅ "Content-Type" "application/json";
     Response_Body := body_docs docs |}.

(** A POST request with the given body. *)
Definition post_Request (body : Body) : Request :=
  {| Request_Method := "POST"; Request_Header := ∅; Request_Body := body |}.

(** A response value that encoding/json cannot marshal. *)
Definition unmarshallable : response :=
  {| response_Headers := None; response_StatusCode := None;
     response_Response := None;
     response_json := inr (fmt_Errorf "json: unsupported type: chan int") |}.

(** A parser that agrees with [url_Parse_plain] on the strings that begin
    with "http" and refuses every other string. *)
Definition url_Parse_http_only (s : string) : URL + error :=
  if HasPrefix s "http" then url_Parse_plain s
  else inr (fmt_Errorf "missing scheme").

(* ===================================================================== *)
(** ** Library facts *)
(* ===================================================================== *)

Local Arguments rune_size : simpl never.

Lemma ValidString_ToValidUTF8_bounded (n : nat) :
  forall s : string,
    (String.length s <= n)%nat -> ValidString s = true -> ToValidUTF8 s = s.
Proof.
  induction n as [|n IH]; intros s Hlen Hv.
  - destruct s; [reflexivity | simpl in Hlen; lia].
  - destruct s as [|c0 t0]; [reflexivity|].
    simpl in Hv |- *.
    destruct (rune_size c0 t0) as [[|[|[|[|k]]]]|]; try discriminate.
    + destruct t0 as [|c1 [|c2 [|c3 t3]]]; try discriminate.
      do 4 f_equal. apply IH; [simpl in Hlen; lia | exact Hv].
    + f_equal. apply IH; [simpl in Hlen; lia | exact Hv].
    + destruct t0 as [|c1 t1]; try discriminate.
      do 2 f_equal. apply IH; [simpl in Hlen; lia | exact Hv].
    + destruct t0 as [|c1 [|c2 t2]]; try discriminate.
      do 3 f_equal. apply IH; [simpl in Hlen; lia | exact Hv].
    + destruct t0 as [|c1 [|c2 [|c3 t3]]]; try discriminate.
      do 4 f_equal. apply IH; [simpl in Hlen; lia | exact Hv].
Qed.

(** A valid string is written as it is. *)
Lemma ValidString_ToValidUTF8 (s : string) :
  ValidString s = true -> ToValidUTF8 s = s.
Proof. apply (ValidString_ToValidUTF8_bounded (String.length s)). lia. Qed.

Lemma to_int_not_nil (z : Z) :
  Z.to_int z <> Decimal.Pos Decimal.Nil /\ Z.to_int z <> Decimal.Neg Decimal.Nil.
Proof.
  destruct z as [|p|p]; simpl; split; try discriminate;
    intros [= H]; exact (Unsigned.to_uint_nonnil p H).
Qed.

(** A 64-bit integer is read back from its decimal text. *)
Lemma ParseInt_FormatInt (z : Z) :
  is_int64 z = true -> ParseInt (FormatInt z) = Some z.
Proof.
  intros Hz. unfold ParseInt, FormatInt.
  destruct (to_int_not_nil z) as [Hp Hn].
  rewrite (NilZero.isi _ Hp Hn), DecimalZ.of_to, Hz. reflexivity.
Qed.

(* ===================================================================== *)
(** ** The error translator *)
(* ===================================================================== *)

Section Translator.

Variable FromError : string -> slice errors_Errors.
Variable HTTPStatusFromCode : Z -> Z.

(** The three arms of the translator, one equation each. *)
Lemma httpEncodeError_status (err : error) (s : Status) (w : ResponseWriter) :
  error_GRPCStatus err = Some s ->
  httpEncodeError FromError HTTPStatusFromCode err w =
  match index0 (FromError (Status_Message s)) with
  | Returns first =>
    Returns (written w (envelope (HTTPStatusFromCode (Status_Code s))
                                 (Errors_Message first)
                                 (FromError (Status_Message s))))
  | Panics reason => Panics reason
  end.
Proof.
  intros Hs. unfold httpEncodeError, status_FromError. rewrite Hs. simpl.
  destruct (index0 (FromError (Status_Message s))); reflexivity.
Qed.

Lemma httpEncodeError_domain (err : error) (d : errors_Error) (w : ResponseWriter) :
  error_GRPCStatus err = None ->
  error_as_errors_Error err = Some d ->
  httpEncodeError FromError HTTPStatusFromCode err w =
  Returns (written w
    (if String.eqb (Msg d) ""
     then envelope StatusInternalServerError "" None
     else envelope StatusInternalServerError (Msg d) (Errors d))).
Proof.
  intros Hs Hd. unfold httpEncodeError, status_FromError. rewrite Hs, Hd. simpl.
  destruct (String.eqb (Msg d) ""); reflexivity.
Qed.

Lemma httpEncodeError_fallback (err : error) (w : ResponseWriter) :
  error_GRPCStatus err = None ->
  error_as_errors_Error err = None ->
  httpEncodeError FromError HTTPStatusFromCode err w =
  match index0 (FromError (error_Error err)) with
  | Returns first =>
    Returns (written w (envelope (transport_status (error_concrete err))
                                 (Errors_Message first)
                                 (FromError (error_Error err))))
  | Panics reason => Panics reason
  end.
Proof.
  intros Hs Hd. unfold httpEncodeError, status_FromError. rewrite Hs, Hd. simpl.
  destruct (index0 (FromError (error_Error err)));
    destruct (error_concrete err); reflexivity.
Qed.

Lemma index0_cons {A : Type} (s : slice A) (x : A) (l : list A) :
  elems s = x :: l -> index0 s = Returns x.
Proof. unfold index0. intros ->. reflexivity. Qed.

Lemma index0_nonempty {A : Type} (s : slice A) :
  elems s <> [] -> exists x, index0 s = Returns x /\ head (elems s) = Some x.
Proof.
  unfold index0. destruct (elems s) as [|x l]; [congruence|].
  intros _. exists x. split; reflexivity.
Qed.

(** Without a first sub-error nothing is emitted: [errs[0]] panics after
    the Content-Type header was set and before the status line. *)
Lemma httpEncodeError_fallback_panics (err : error) (w : ResponseWriter) :
  error_GRPCStatus err = None ->
  error_as_errors_Error err = None ->
  elems (FromError (error_Error err)) = [] ->
  httpEncodeError FromError HTTPStatusFromCode err w =
  Panics "index out of range [0] with length 0".
Proof.
  intros Hs Hd He. rewrite (httpEncodeError_fallback err w Hs Hd).
  unfold index0. rewrite He. reflexivity.
Qed.

(** The status line of a writer that had none is the code of the envelope. *)
Lemma written_Code (w : ResponseWriter) (env : ErrorRes) :
  rw_Code w = None ->
  rw_Code (written w env) = Some (ErrorResItem_Code (ErrorRes_Error env)).
Proof.
  intros Hw. unfold written, Write, WriteHeader, with_Header. simpl.
  rewrite Hw. reflexivity.
Qed.

(** C1 (amended). For an error that carries an RPC status or is not a typed
    domain error, the errors sequence of the emitted envelope is not empty
    as long as the generic parser never returns an empty sequence. For a
    typed domain error without RPC status the sequence is the error's own
    structured detail when its message is not empty, and nil when its
    message is empty: no entry is derived from the message. *)
Theorem httpEncodeError_errors (err : error) (w : ResponseWriter) :
  (forall s, elems (FromError s) <> []) ->
  exists env,
    httpEncodeError FromError HTTPStatusFromCode err w = Returns (written w env) /\
    match error_GRPCStatus err, error_as_errors_Error err with
    | None, Some d =>
      ErrorResItem_Errors (ErrorRes_Error env) =
      if String.eqb (Msg d) "" then None else Errors d
    | _, _ => elems (ErrorResItem_Errors (ErrorRes_Error env)) <> []
    end.
Proof.
  intros Hne.
  destruct (error_GRPCStatus err) as [s|] eqn:Hs.
  - rewrite (httpEncodeError_status err s w Hs).
    destruct (index0_nonempty _ (Hne (Status_Message s))) as [x [-> _]].
    eexists; split; [reflexivity|]. simpl. apply Hne.
  - destruct (error_as_errors_Error err) as [d|] eqn:Hd.
    + rewrite (httpEncodeError_domain err d w Hs Hd).
      eexists; split; [reflexivity|].
      destruct (String.eqb (Msg d) ""); reflexivity.
    + rewrite (httpEncodeError_fallback err w Hs Hd).
      destruct (index0_nonempty _ (Hne (error_Error err))) as [x [-> _]].
      eexists; split; [reflexivity|]. simpl. apply Hne.
Qed.

(** C2. An error that is neither an RPC status error nor a typed domain
    error is given status 400 when it is io.ErrUnexpectedEOF or io.EOF, 401
    when it is the missing-token-context error, 400 when it is a JSON syntax
    or type-mismatch error, and 500 otherwise; on a writer without a status
    line that code is the status line written. *)
Theorem httpEncodeError_transport_status (err : error) (w : ResponseWriter) :
  error_GRPCStatus err = None ->
  error_as_errors_Error err = None ->
  elems (FromError (error_Error err)) <> [] ->
  exists env,
    httpEncodeError FromError HTTPStatusFromCode err w = Returns (written w env) /\
    ErrorResItem_Code (ErrorRes_Error env) = transport_status (error_concrete err) /\
    (rw_Code w = None ->
     rw_Code (written w env) = Some (transport_status (error_concrete err))).
Proof.
  intros Hs Hd Hne.
  rewrite (httpEncodeError_fallback err w Hs Hd).
  destruct (index0_nonempty _ Hne) as [x [-> _]].
  eexists; split; [reflexivity|]. split; [reflexivity|].
  intros Hw. rewrite written_Code by exact Hw. reflexivity.
Qed.

(** C3. An error with an RPC status is translated by the first rule,
    whatever else it is: the code is the table's entry for the status code,
    the sub-errors are the status message run through the generic parser,
    and the message is that of the first of them. *)
Theorem httpEncodeError_rpc_first (err : error) (s : Status) (w : ResponseWriter)
    (first : errors_Errors) (rest : list errors_Errors) :
  error_GRPCStatus err = Some s ->
  elems (FromError (Status_Message s)) = first :: rest ->
  httpEncodeError FromError HTTPStatusFromCode err w =
  Returns (written w (envelope (HTTPStatusFromCode (Status_Code s))
                               (Errors_Message first)
                               (FromError (Status_Message s)))).
Proof.
  intros Hs Hp.
  rewrite (httpEncodeError_status err s w Hs), (index0_cons _ _ _ Hp).
  reflexivity.
Qed.

(** C6 (amended). For an error that is neither an RPC status error nor a
    typed domain error, the sub-errors of the envelope are the error's text
    run through the generic parser and the message of the envelope is the
    message of the first of them. *)
Theorem httpEncodeError_fallback_message (err : error) (w : ResponseWriter)
    (first : errors_Errors) (rest : list errors_Errors) :
  error_GRPCStatus err = None ->
  error_as_errors_Error err = None ->
  elems (FromError (error_Error err)) = first :: rest ->
  exists env,
    httpEncodeError FromError HTTPStatusFromCode err w = Returns (written w env) /\
    ErrorResItem_Errors (ErrorRes_Error env) = FromError (error_Error err) /\
    head (elems (ErrorResItem_Errors (ErrorRes_Error env))) = Some first /\
    ErrorResItem_Message (ErrorRes_Error env) = Errors_Message first.
Proof.
  intros Hs Hd Hp.
  rewrite (httpEncodeError_fallback err w Hs Hd), (index0_cons _ _ _ Hp).
  eexists; split; [reflexivity|]. simpl. rewrite Hp. auto.
Qed.

End Translator.

(* ===================================================================== *)
(** ** The client side *)
(* ===================================================================== *)

Lemma copyURL_allocates (base : ptr) (path : string) (h : gmap nat URL) (b : URL) :
  h !! base = Some b ->
  exists next h',
    copyURL base path h = Returns (next, h') /\
    h' !! next =
      Some {| URL_Scheme := URL_Scheme b; URL_Opaque := URL_Opaque b;
              URL_User := URL_User b; URL_Host := URL_Host b;
              URL_Path := path; URL_RawPath := URL_RawPath b;
              URL_ForceQuery := URL_ForceQuery b; URL_RawQuery := URL_RawQuery b;
              URL_Fragment := URL_Fragment b; URL_RawFragment := URL_RawFragment b |} /\
    h !! next = None /\
    (forall p, p <> next -> h' !! p = h !! p).
Proof.
  intros Hb. unfold copyURL, new. rewrite Hb.
  eexists _, _. split; [reflexivity|].
  split; [apply lookup_insert_eq|]. split.
  - apply not_elem_of_dom. apply is_fresh.
  - intros p Hp. apply lookup_insert_ne. congruence.
Qed.

(** C10. copyURL returns the address of a new URL, unused before the call,
    whose Path is the given path and whose other fields are those of the
    base; the base keeps its value, and so does every other URL in the
    store. *)
Theorem copyURL_frame (base : ptr) (path : string) (h : gmap nat URL) (b : URL) :
  h !! base = Some b ->
  exists next h',
    copyURL base path h = Returns (next, h') /\
    h' !! next =
      Some {| URL_Scheme := URL_Scheme b; URL_Opaque := URL_Opaque b;
              URL_User := URL_User b; URL_Host := URL_Host b;
              URL_Path := path; URL_RawPath := URL_RawPath b;
              URL_ForceQuery := URL_ForceQuery b; URL_RawQuery := URL_RawQuery b;
              URL_Fragment := URL_Fragment b; URL_RawFragment := URL_RawFragment b |} /\
    next <> base /\
    h !! next = None /\
    h' !! base = Some b /\
    (forall p, p <> next -> h' !! p = h !! p).
Proof.
  intros Hb.
  destruct (copyURL_allocates base path h b Hb) as (next & h' & Hc & Hn & Hnone & Hfr).
  assert (Hne : next <> base) by congruence.
  exists next, h'. repeat split; try assumption.
  rewrite Hfr by congruence. exact Hb.
Qed.

Section Client.

Variable errors_New : string -> error.
Variable url_Parse : string -> URL + error.

Lemma HasPrefix_http (instance : string) :
  HasPrefix ("http://" +:+ instance) "http" = true.
Proof. reflexivity. Qed.

Lemma NewHTTPClient_parsed (instance : string) (h : gmap nat URL) :
  NewHTTPClient errors_New url_Parse instance h =
  match url_Parse (parsed_instance instance) with
  | inr err => Returns ((None, Some err), h)
  | inl parsed =>
    match copyURL (fst (new h parsed)) "/sum" (snd (new h parsed)) with
    | Panics reason => Panics reason
    | Returns (tgt, h1) =>
      match copyURL (fst (new h parsed)) "/concat" h1 with
      | Panics reason => Panics reason
      | Returns (tgt', h2) =>
        Returns ((Some {| SumEndpoint :=
                            {| Client_method := "POST"; Client_tgt := tgt;
                               Client_dec := decodeHTTPSumResponse errors_New |};
                          ConcatEndpoint :=
                            {| Client_method := "POST"; Client_tgt := tgt';
                               Client_dec := decodeHTTPConcatResponse errors_New |} |},
                  None), h2)
      end
    end
  end.
Proof.
  unfold NewHTTPClient, parsed_instance.
  destruct (HasPrefix instance "http"); reflexivity.
Qed.

(** A parsed instance yields both endpoints: POST to the copies of the
    parsed URL with paths "/sum" and "/concat". *)
Lemma NewHTTPClient_endpoints (instance : string) (h : gmap nat URL) (u : URL) :
  url_Parse (parsed_instance instance) = inl u ->
  exists e h',
    NewHTTPClient errors_New url_Parse instance h = Returns ((Some e, None), h') /\
    Client_method (SumEndpoint e) = "POST" /\
    URL_Path <$> h' !! Client_tgt (SumEndpoint e) = Some "/sum" /\
    Client_method (ConcatEndpoint e) = "POST" /\
    URL_Path <$> h' !! Client_tgt (ConcatEndpoint e) = Some "/concat".
Proof.
  intros Hu. rewrite NewHTTPClient_parsed, Hu.
  assert (H0 : snd (new h u) !! fst (new h u) = Some u)
    by (unfold new; simpl; apply lookup_insert_eq).
  destruct (copyURL_allocates _ "/sum" _ _ H0) as (t1 & h1 & -> & Ht1 & Hn1 & Hfr1).
  assert (H1 : h1 !! fst (new h u) = Some u)
    by (rewrite Hfr1 by congruence; exact H0).
  destruct (copyURL_allocates _ "/concat" _ _ H1) as (t2 & h2 & -> & Ht2 & Hn2 & Hfr2).
  eexists _, _. split; [reflexivity|]. simpl.
  assert (Hne : t1 <> t2) by congruence.
  repeat split.
  - rewrite Hfr2 by exact Hne. rewrite Ht1. reflexivity.
  - rewrite Ht2. reflexivity.
Qed.

(** C8, what the code does. The client endpoints post to "/sum" and
    "/concat"; the handler binds POST "/api/add/sum" and POST
    "/api/add/concat" and has no route for the paths the client uses. *)
Theorem NewHTTPClient_paths (instance : string) (h : gmap nat URL) (u : URL) :
  url_Parse (parsed_instance instance) = inl u ->
  exists e h',
    NewHTTPClient errors_New url_Parse instance h = Returns ((Some e, None), h') /\
    Client_method (SumEndpoint e) = "POST" /\
    URL_Path <$> h' !! Client_tgt (SumEndpoint e) = Some "/sum" /\
    Client_method (ConcatEndpoint e) = "POST" /\
    URL_Path <$> h' !! Client_tgt (ConcatEndpoint e) = Some "/concat" /\
    mux_lookup NewHTTPHandler "POST" "/sum" = None /\
    mux_lookup NewHTTPHandler "POST" "/concat" = None /\
    mux_lookup NewHTTPHandler "POST" "/api/add/sum" = Some (kit_Server Sum) /\
    mux_lookup NewHTTPHandler "POST" "/api/add/concat" = Some (kit_Server Concat).
Proof.
  intros Hu.
  destruct (NewHTTPClient_endpoints instance h u Hu) as (e & h' & H1 & H2 & H3 & H4 & H5).
  exists e, h'. repeat split; assumption || reflexivity.
Qed.

(** C5 (amended). On status code 200 the response decoders decode the body
    into the typed payload and hand back the decoder's error, if any, with
    it; on any other status code, 2xx or not, they return no value and the
    error of JSONErrorDecoder. *)
Theorem decodeHTTPResponse_status (r : Response) :
  (Response_StatusCode r = 200 ->
   decodeHTTPSumResponse errors_New r =
     (Some (fst (Decode unmarshal_SumResponse {| SumResponse_Res := 0 |}
                        (Response_Body r))),
      snd (Decode unmarshal_SumResponse {| SumResponse_Res := 0 |}
                  (Response_Body r))) /\
   decodeHTTPConcatResponse errors_New r =
     (Some (fst (Decode unmarshal_ConcatResponse {| ConcatResponse_Res := "" |}
                        (Response_Body r))),
      snd (Decode unmarshal_ConcatResponse {| ConcatResponse_Res := "" |}
                  (Response_Body r)))) /\
  (Response_StatusCode r <> 200 ->
   decodeHTTPSumResponse errors_New r = (None, Some (JSONErrorDecoder errors_New r)) /\
   decodeHTTPConcatResponse errors_New r = (None, Some (JSONErrorDecoder errors_New r))).
Proof.
  unfold decodeHTTPSumResponse, decodeHTTPConcatResponse, StatusOK. split.
  - intros ->. split; reflexivity.
  - intros Hne. apply Z.eqb_neq in Hne. rewrite Hne. split; reflexivity.
Qed.

End Client.

(* ===================================================================== *)
(** ** Server and client together *)
(* ===================================================================== *)

Local Arguments ParseInt : simpl never.
Local Arguments FormatInt : simpl never.
Local Arguments ToValidUTF8 : simpl never.

(** Whatever the translator returns is a writer holding one envelope. *)
Lemma httpEncodeError_written (FromError : string -> slice errors_Errors)
    (HTTPStatusFromCode : Z -> Z) (err : error) (w w' : ResponseWriter) :
  httpEncodeError FromError HTTPStatusFromCode err w = Returns w' ->
  exists env, w' = written w env.
Proof.
  destruct (error_GRPCStatus err) as [s|] eqn:Hs.
  - rewrite (httpEncodeError_status _ _ err s w Hs).
    destruct (index0 _); [|discriminate]. intros [= <-]. eauto.
  - destruct (error_as_errors_Error err) as [d|] eqn:Hd.
    + rewrite (httpEncodeError_domain _ _ err d w Hs Hd). intros [= <-]. eauto.
    + rewrite (httpEncodeError_fallback _ _ err w Hs Hd).
      destruct (index0 _); [|discriminate]. intros [= <-]. eauto.
Qed.

(** The error decoder on an envelope: the ["error"] member is an object
    where ErrorWrapper has a string. *)
Lemma JSONErrorDecoder_envelope (errors_New : string -> error) (env : ErrorRes) :
  JSONErrorDecoder errors_New (Result (written NewRecorder env)) =
  json_UnmarshalTypeError "object" "ErrorWrapper" "error" "string".
Proof. destruct env as [[code message errs]]. vm_compute. reflexivity. Qed.

(** A response whose Content-Type does not mention application/json is
    answered with a generic error; the body is not looked at. *)
Lemma JSONErrorDecoder_not_json (errors_New : string -> error) (r : Response) :
  Contains (Header_Get (Response_Header r) "Content-Type") "application/json" = false ->
  JSONErrorDecoder errors_New r =
  fmt_Errorf ("expected JSON formatted error, got Content-Type "
              +:+ Header_Get (Response_Header r) "Content-Type").
Proof. intros Hc. unfold JSONErrorDecoder. rewrite Hc. reflexivity. Qed.

(** C4, what the code does. Whatever error the translator wrote to a new
    writer, the client-side error decoder answers the envelope with one and
    the same JSON type-mismatch error: code, message and sub-errors of the
    envelope do not reach the error it returns. *)
Theorem JSONErrorDecoder_of_translated (FromError : string -> slice errors_Errors)
    (HTTPStatusFromCode : Z -> Z) (errors_New : string -> error)
    (err : error) (w' : ResponseWriter) :
  httpEncodeError FromError HTTPStatusFromCode err NewRecorder = Returns w' ->
  JSONErrorDecoder errors_New (Result w') =
  json_UnmarshalTypeError "object" "ErrorWrapper" "error" "string".
Proof.
  intros Hw. destruct (httpEncodeError_written _ _ _ _ _ Hw) as [env ->].
  apply JSONErrorDecoder_envelope.
Qed.

Lemma served_plain (doc : json) :
  served {| response_Headers := None; response_StatusCode := None;
            response_Response := None; response_json := inl doc |} =
  {| Response_StatusCode := 200;
     Response_Header :=
       Header_Set ∅ "Content-Type" "application/json; charset=utf-8";
     Response_Body := body_docs [doc] |}.
Proof. reflexivity. Qed.

(** C7 (amended). A Sum response with a 64-bit result, and a Concat response
    whose result is valid UTF-8, are served with status 200 and decoded by
    the client decoders to the response they were encoded from. *)
Theorem encode_decode_success (errors_New : string -> error)
    (s : SumResponse) (c : ConcatResponse) :
  is_int64 (SumResponse_Res s) = true ->
  ValidString (ConcatResponse_Res c) = true ->
  Response_StatusCode (served (response_of_SumResponse s)) = 200 /\
  decodeHTTPSumResponse errors_New (served (response_of_SumResponse s)) =
    (Some s, None) /\
  Response_StatusCode (served (response_of_ConcatResponse c)) = 200 /\
  decodeHTTPConcatResponse errors_New (served (response_of_ConcatResponse c)) =
    (Some c, None).
Proof.
  intros Hs Hc. destruct s as [z], c as [t]. simpl in Hs, Hc.
  unfold response_of_SumResponse, response_of_ConcatResponse.
  rewrite !served_plain.
  unfold decodeHTTPSumResponse, decodeHTTPConcatResponse. simpl.
  unfold object_member, json_int, json_string. simpl.
  rewrite (ParseInt_FormatInt z Hs), (ValidString_ToValidUTF8 t Hc).
  repeat split; reflexivity.
Qed.

(* ===================================================================== *)
(** ** The statements at concrete inputs *)
(* ===================================================================== *)

(** C1, as stated, fails on a domain error with an empty message (what
    errors.New("") gives): the envelope is emitted with code 500, an empty
    message and a nil errors sequence. *)
Lemma httpEncodeError_errors_empty :
  ~ (forall env,
       httpEncodeError FromError_spec HTTPStatusFromCode_spec
         (errors_New_spec "") NewRecorder = Returns (written NewRecorder env) ->
       elems (ErrorResItem_Errors (ErrorRes_Error env)) <> []).
Proof.
  intros H. apply (H (envelope 500 "" None)); reflexivity.
Qed.

Lemma httpEncodeError_errors_witness :
  (forall s, elems (FromError_spec s) <> []) /\
  exists env,
    httpEncodeError FromError_spec HTTPStatusFromCode_spec
      (fmt_Errorf "boom") NewRecorder = Returns (written NewRecorder env) /\
    elems (ErrorResItem_Errors (ErrorRes_Error env)) <> [].
Proof.
  split.
  - intros s. discriminate.
  - apply (httpEncodeError_errors FromError_spec HTTPStatusFromCode_spec
             (fmt_Errorf "boom") NewRecorder).
    intros s. discriminate.
Defined.

Lemma httpEncodeError_transport_status_witness :
  error_GRPCStatus kitjwt_ErrTokenContextMissing = None /\
  error_as_errors_Error kitjwt_ErrTokenContextMissing = None /\
  elems (FromError_spec (error_Error kitjwt_ErrTokenContextMissing)) <> [] /\
  exists env,
    httpEncodeError FromError_spec HTTPStatusFromCode_spec
      kitjwt_ErrTokenContextMissing NewRecorder = Returns (written NewRecorder env) /\
    ErrorResItem_Code (ErrorRes_Error env) = 401 /\
    (rw_Code NewRecorder = None -> rw_Code (written NewRecorder env) = Some 401).
Proof.
  split; [reflexivity|]. split; [reflexivity|]. split; [discriminate|].
  apply (httpEncodeError_transport_status FromError_spec HTTPStatusFromCode_spec
           kitjwt_ErrTokenContextMissing NewRecorder);
    [reflexivity | reflexivity | discriminate].
Defined.

Lemma httpEncodeError_rpc_first_witness :
  error_GRPCStatus
    {| error_Error := "rpc error: code = NotFound desc = no such user";
       error_concrete := is_other;
       error_GRPCStatus := Some {| Status_Code := 5; Status_Message := "no such user" |};
       error_as_errors_Error := Some {| Msg := "domain"; Errors := None |} |}
  = Some {| Status_Code := 5; Status_Message := "no such user" |} /\
  elems (FromError_spec "no such user") =
    [ {| Errors_Field := None; Errors_Message := "no such user" |} ] /\
  httpEncodeError FromError_spec HTTPStatusFromCode_spec
    {| error_Error := "rpc error: code = NotFound desc = no such user";
       error_concrete := is_other;
       error_GRPCStatus := Some {| Status_Code := 5; Status_Message := "no such user" |};
       error_as_errors_Error := Some {| Msg := "domain"; Errors := None |} |}
    NewRecorder =
  Returns (written NewRecorder
             (envelope 404 "no such user" (FromError_spec "no such user"))).
Proof.
  split; [reflexivity|]. split; [reflexivity|].
  apply (httpEncodeError_rpc_first FromError_spec HTTPStatusFromCode_spec
           _ {| Status_Code := 5; Status_Message := "no such user" |} NewRecorder
           {| Errors_Field := None; Errors_Message := "no such user" |} []);
    reflexivity.
Defined.

(** C4 at a concrete exchange: the translator answers the error "boom" with
    the envelope (500, "boom", [{message: "boom"}]); decoding that response
    yields the type-mismatch error, not an error made from "boom". *)
Lemma JSONErrorDecoder_of_translated_witness :
  httpEncodeError FromError_spec HTTPStatusFromCode_spec (fmt_Errorf "boom") NewRecorder =
    Returns (written NewRecorder (envelope 500 "boom" (FromError_spec "boom"))) /\
  JSONErrorDecoder errors_New_spec
    (Result (written NewRecorder (envelope 500 "boom" (FromError_spec "boom")))) =
  json_UnmarshalTypeError "object" "ErrorWrapper" "error" "string".
Proof.
  split; [reflexivity|].
  apply (JSONErrorDecoder_of_translated FromError_spec HTTPStatusFromCode_spec
           errors_New_spec (fmt_Errorf "boom")).
  reflexivity.
Defined.

(** C5, as stated, fails on a 201 response with a well-formed Sum payload:
    the payload is not decoded, the response goes to the error decoder. *)
Lemma decodeHTTPSumResponse_created :
  ~ (200 <= 201 <= 299 ->
     decodeHTTPSumResponse errors_New_spec
       {| Response_StatusCode := 201;
          Response_Header :=
            Header_Set ∅ "Content-Type" "application/json; charset=utf-8";
          Response_Body := body_docs [JObject [("res", JNumber "5")]] |} =
     (Some {| SumResponse_Res := 5 |}, None)).
Proof.
  intros H. assert (Hr : 200 <= 201 <= 299) by lia.
  specialize (H Hr). vm_compute in H. discriminate H.
Qed.

(** C6, as stated, fails on a domain error with an empty message: steps 1-2
    do not set the message, and the envelope has no first sub-error to take
    it from. *)
Lemma httpEncodeError_message_unset :
  ~ (message_set_by_steps_1_2 (errors_New_spec "") = false ->
     forall env,
       httpEncodeError FromError_spec HTTPStatusFromCode_spec
         (errors_New_spec "") NewRecorder = Returns (written NewRecorder env) ->
       exists first,
         head (elems (ErrorResItem_Errors (ErrorRes_Error env))) = Some first /\
         ErrorResItem_Message (ErrorRes_Error env) = Errors_Message first).
Proof.
  intros H.
  destruct (H eq_refl (envelope 500 "" None) eq_refl) as [first [Hf _]].
  discriminate Hf.
Qed.

Lemma httpEncodeError_fallback_message_witness :
  error_GRPCStatus (fmt_Errorf "boom") = None /\
  error_as_errors_Error (fmt_Errorf "boom") = None /\
  elems (FromError_spec (error_Error (fmt_Errorf "boom"))) =
    [ {| Errors_Field := None; Errors_Message := "boom" |} ] /\
  exists env,
    httpEncodeError FromError_spec HTTPStatusFromCode_spec
      (fmt_Errorf "boom") NewRecorder = Returns (written NewRecorder env) /\
    ErrorResItem_Errors (ErrorRes_Error env) = FromError_spec "boom" /\
    head (elems (ErrorResItem_Errors (ErrorRes_Error env))) =
      Some {| Errors_Field := None; Errors_Message := "boom" |} /\
    ErrorResItem_Message (ErrorRes_Error env) = "boom".
Proof.
  split; [reflexivity|]. split; [reflexivity|]. split; [reflexivity|].
  apply (httpEncodeError_fallback_message FromError_spec HTTPStatusFromCode_spec
           (fmt_Errorf "boom") NewRecorder
           {| Errors_Field := None; Errors_Message := "boom" |} []);
    reflexivity.
Defined.

(** C7, as stated, fails on a Concat result that is not valid UTF-8: the
    byte 0xFF is written as U+FFFD and comes back as the three bytes of
    U+FFFD. *)
Lemma encode_decode_invalid_utf8 :
  ~ (decodeHTTPConcatResponse errors_New_spec
       (served (response_of_ConcatResponse
                  {| ConcatResponse_Res := String (ascii_of_N 255) "" |})) =
     (Some {| ConcatResponse_Res := String (ascii_of_N 255) "" |}, None)).
Proof.
  intros H. vm_compute in H. discriminate H.
Qed.

Lemma encode_decode_success_witness :
  is_int64 (SumResponse_Res {| SumResponse_Res := 5 |}) = true /\
  ValidString (ConcatResponse_Res {| ConcatResponse_Res := "foobar" |}) = true /\
  Response_StatusCode (served (response_of_SumResponse {| SumResponse_Res := 5 |})) = 200 /\
  decodeHTTPSumResponse errors_New_spec
    (served (response_of_SumResponse {| SumResponse_Res := 5 |})) =
    (Some {| SumResponse_Res := 5 |}, None) /\
  Response_StatusCode
    (served (response_of_ConcatResponse {| ConcatResponse_Res := "foobar" |})) = 200 /\
  decodeHTTPConcatResponse errors_New_spec
    (served (response_of_ConcatResponse {| ConcatResponse_Res := "foobar" |})) =
    (Some {| ConcatResponse_Res := "foobar" |}, None).
Proof.
  split; [reflexivity|]. split; [reflexivity|].
  apply (encode_decode_success errors_New_spec
           {| SumResponse_Res := 5 |} {| ConcatResponse_Res := "foobar" |});
    reflexivity.
Defined.

Lemma NewHTTPClient_paths_witness :
  url_Parse_plain (parsed_instance "localhost:8080") = inl localhost_URL /\
  exists e h',
    NewHTTPClient errors_New_spec url_Parse_plain "localhost:8080" ∅ =
      Returns ((Some e, None), h') /\
    Client_method (SumEndpoint e) = "POST" /\
    URL_Path <$> h' !! Client_tgt (SumEndpoint e) = Some "/sum" /\
    Client_method (ConcatEndpoint e) = "POST" /\
    URL_Path <$> h' !! Client_tgt (ConcatEndpoint e) = Some "/concat" /\
    mux_lookup NewHTTPHandler "POST" "/sum" = None /\
    mux_lookup NewHTTPHandler "POST" "/concat" = None /\
    mux_lookup NewHTTPHandler "POST" "/api/add/sum" = Some (kit_Server Sum) /\
    mux_lookup NewHTTPHandler "POST" "/api/add/concat" = Some (kit_Server Concat).
Proof.
  split; [reflexivity|].
  apply (NewHTTPClient_paths errors_New_spec url_Parse_plain
           "localhost:8080" ∅ localhost_URL).
  reflexivity.
Defined.

Lemma copyURL_frame_witness :
  ({[ 0%nat := localhost_URL ]} : gmap nat URL) !! 0%nat = Some localhost_URL /\
  exists next h',
    copyURL 0%nat "/sum" {[ 0%nat := localhost_URL ]} = Returns (next, h') /\
    h' !! next =
      Some {| URL_Scheme := "http"; URL_Opaque := ""; URL_User := None;
              URL_Host := "localhost:8080"; URL_Path := "/sum"; URL_RawPath := "";
              URL_ForceQuery := false; URL_RawQuery := "";
              URL_Fragment := ""; URL_RawFragment := "" |} /\
    next <> 0%nat /\
    ({[ 0%nat := localhost_URL ]} : gmap nat URL) !! next = None /\
    h' !! 0%nat = Some localhost_URL /\
    (forall p, p <> next ->
       h' !! p = ({[ 0%nat := localhost_URL ]} : gmap nat URL) !! p).
Proof.
  split; [reflexivity|].
  apply (copyURL_frame 0%nat "/sum" {[ 0%nat := localhost_URL ]} localhost_URL).
  reflexivity.
Defined.

(* ===================================================================== *)
(** ** Scenarios *)
(* ===================================================================== *)

(** A body that is not JSON: 400 and an envelope with one sub-error. *)
Example scenario_not_json :
  httpEncodeError FromError_spec HTTPStatusFromCode_spec
    (json_SyntaxError "invalid character 'o' in literal null (expecting 'u')")
    NewRecorder =
  Returns (written NewRecorder
    (envelope 400 "invalid character 'o' in literal null (expecting 'u')"
       (Some [ {| Errors_Field := None;
                  Errors_Message :=
                    "invalid character 'o' in literal null (expecting 'u')" |} ]))).
Proof. reflexivity. Qed.

(** A protected route without a token: 401. *)
Example scenario_no_token :
  (fun o => match o with
            | Returns w => rw_Code w
            | Panics _ => None
            end)
    (httpEncodeError FromError_spec HTTPStatusFromCode_spec
       kitjwt_ErrTokenContextMissing NewRecorder) = Some 401.
Proof. reflexivity. Qed.

(** The domain call returns an RPC InvalidArgument status: 400 and the
    message of the status. *)
Example scenario_InvalidArgument :
  httpEncodeError FromError_spec HTTPStatusFromCode_spec
    {| error_Error := "rpc error: code = InvalidArgument desc = a is negative";
       error_concrete := is_other;
       error_GRPCStatus :=
         Some {| Status_Code := 3; Status_Message := "a is negative" |};
       error_as_errors_Error := None |}
    NewRecorder =
  Returns (written NewRecorder
    (envelope 400 "a is negative"
       (Some [ {| Errors_Field := None; Errors_Message := "a is negative" |} ]))).
Proof. reflexivity. Qed.

(** The success body of Sum for the result 5, as the encoder writes it. *)
Example scenario_sum_body :
  Response_Body (served (response_of_SumResponse {| SumResponse_Res := 5 |})) =
  body_docs [JObject [("res", JNumber "5")]].
Proof. reflexivity. Qed.

(** A domain error with a message and no structured detail: the envelope
    carries the message and a nil errors sequence. *)
Example scenario_domain_error :
  httpEncodeError FromError_spec HTTPStatusFromCode_spec
    (errors_New_spec "not found") NewRecorder =
  Returns (written NewRecorder (envelope 500 "not found" None)).
Proof. reflexivity. Qed.

(** A plain-text error page is not parsed. *)
Example scenario_text_plain :
  JSONErrorDecoder errors_New_spec
    {| Response_StatusCode := 502;
       Response_Header := Header_Set ∅ "Content-Type" "text/plain";
       Response_Body := body_syntax "invalid character 'B' looking for beginning of value" |} =
  fmt_Errorf "expected JSON formatted error, got Content-Type text/plain".
Proof. reflexivity. Qed.

(** An error body of the ErrorWrapper shape is the one the error decoder
    turns into a domain error. *)
Example scenario_wrapper_body :
  JSONErrorDecoder errors_New_spec
    {| Response_StatusCode := 500;
       Response_Header := Header_Set ∅ "Content-Type" "application/json";
       Response_Body := body_docs [JObject [("error", JString "boom")]] |} =
  errors_New_spec "boom".
Proof. reflexivity. Qed.

(** A request body whose Read times out: the decoder hands the error back
    and the translator answers it with 500. *)
Example scenario_read_error :
  snd (decodeHTTPSumRequest (post_Request (body_read_error (fmt_Errorf "i/o timeout")))) =
    Some (fmt_Errorf "i/o timeout") /\
  httpEncodeError FromError_spec HTTPStatusFromCode_spec (fmt_Errorf "i/o timeout")
    NewRecorder =
  Returns (written NewRecorder
             (envelope 500 "i/o timeout" (FromError_spec "i/o timeout"))).
Proof. split; reflexivity. Qed.

(** url.Parse on a bare host:port that begins with "http", and on the same
    string with a scheme. *)
Example scenario_httpbin :
  url_Parse_plain "httpbin.org:80" =
    inl {| URL_Scheme := "httpbin.org"; URL_Opaque := "80"; URL_User := None;
           URL_Host := ""; URL_Path := ""; URL_RawPath := "";
           URL_ForceQuery := false; URL_RawQuery := "";
           URL_Fragment := ""; URL_RawFragment := "" |} /\
  url_Parse_plain "http://httpbin.org:80" =
    inl {| URL_Scheme := "http"; URL_Opaque := ""; URL_User := None;
           URL_Host := "httpbin.org:80"; URL_Path := ""; URL_RawPath := "";
           URL_ForceQuery := false; URL_RawQuery := "";
           URL_Fragment := ""; URL_RawFragment := "" |}.
Proof. split; reflexivity. Qed.

(* ===================================================================== *)
(** ** More on the error translator *)
(* ===================================================================== *)

Section TranslatorFrame.

Variable FromError : string -> slice errors_Errors.
Variable HTTPStatusFromCode : Z -> Z.

(** X1. An error without RPC status is never answered with a status other
    than 400, 401 or 500, and a typed domain error always with 500,
    whatever its concrete value is. *)
Theorem httpEncodeError_status_set (err : error) (w w' : ResponseWriter) :
  error_GRPCStatus err = None ->
  httpEncodeError FromError HTTPStatusFromCode err w = Returns w' ->
  exists env,
    w' = written w env /\
    (ErrorResItem_Code (ErrorRes_Error env) = 400 \/
     ErrorResItem_Code (ErrorRes_Error env) = 401 \/
     ErrorResItem_Code (ErrorRes_Error env) = 500) /\
    (error_as_errors_Error err <> None ->
     ErrorResItem_Code (ErrorRes_Error env) = 500).
Proof.
  intros Hs.
  destruct (error_as_errors_Error err) as [d|] eqn:Hd.
  - rewrite (httpEncodeError_domain _ _ err d w Hs Hd). intros [= <-].
    eexists; split; [reflexivity|].
    destruct (String.eqb (Msg d) ""); simpl; auto.
  - rewrite (httpEncodeError_fallback _ _ err w Hs Hd).
    destruct (index0 _); [|discriminate]. intros [= <-].
    eexists; split; [reflexivity|]. simpl.
    split; [|congruence].
    destruct (error_concrete err); simpl; auto.
Qed.



(** X3. The translator panics exactly when it takes the first element of an
    empty parse: for an error with an RPC status when the parser finds
    nothing in the status message, for an error that is neither that nor a
    typed domain error when it finds nothing in the error's text, and never
    for a typed domain error without RPC status. *)
Theorem httpEncodeError_panics_iff (err : error) (w : ResponseWriter) :
  (exists reason,
     httpEncodeError FromError HTTPStatusFromCode err w = Panics reason) <->
  match error_GRPCStatus err with
  | Some s => elems (FromError (Status_Message s)) = []
  | None =>
    error_as_errors_Error err = None /\ elems (FromError (error_Error err)) = []
  end.
Proof.
  destruct (error_GRPCStatus err) as [s|] eqn:Hs.
  - rewrite (httpEncodeError_status _ _ err s w Hs). unfold index0.
    destruct (elems (FromError (Status_Message s))); split.
    + reflexivity.
    + eauto.
    + intros [r Hr]. discriminate.
    + discriminate.
  - destruct (error_as_errors_Error err) as [d|] eqn:Hd.
    + rewrite (httpEncodeError_domain _ _ err d w Hs Hd). split.
      * intros [r Hr]. discriminate.
      * intros [Hn _]. discriminate.
    + rewrite (httpEncodeError_fallback _ _ err w Hs Hd). unfold index0.
      destruct (elems (FromError (error_Error err))); split.
      * auto.
      * eauto.
      * intros [r Hr]. discriminate.
      * intros [_ Hn]. discriminate.
Qed.

End TranslatorFrame.

(* ===================================================================== *)
(** ** The request decoders and encoders *)
(* ===================================================================== *)













(* ===================================================================== *)
(** ** The client decoders on other bodies *)
(* ===================================================================== *)

(** Members that match no field leave the decoded value as it is. *)
Lemma object_member_skip {T : Type} (key : string)
    (store : json -> T -> T * option error) (members : list (string * json)) :
  Forall (fun kv => foldName (fst kv) <> foldName key) members ->
  forall st, fold_left (object_member key store) members st = st.
Proof.
  induction 1 as [|kv members Hkv _ IH]; intros st; simpl; [reflexivity|].
  rewrite IH. unfold object_member.
  destruct (String.eqb_spec (foldName (fst kv)) (foldName key)); congruence.
Qed.

Lemma ParseInt_FormatInt_outside (z : Z) :
  is_int64 z = false -> ParseInt (FormatInt z) = None.
Proof.
  intros Hz. unfold ParseInt, FormatInt.
  destruct (to_int_not_nil z) as [Hp Hn].
  rewrite (NilZero.isi _ Hp Hn), DecimalZ.of_to, Hz. reflexivity.
Qed.

Section Decoders.

Variable errors_New : string -> error.

(** X6. The error decoder inverts the encoding of responses.ErrorWrapper: a
    JSON response whose body is an encoded ErrorWrapper is turned into the
    domain error made from the wrapper's text as the encoder wrote it, which
    is the text itself when it is valid UTF-8. *)
Theorem JSONErrorDecoder_ErrorWrapper (r : Response) (wrapper : ErrorWrapper)
    (rest : list json) :
  Contains (Header_Get (Response_Header r) "Content-Type") "application/json" = true ->
  Response_Body r = body_docs (json_ErrorWrapper wrapper :: rest) ->
  JSONErrorDecoder errors_New r =
    errors_New (ToValidUTF8 (ErrorWrapper_Error wrapper)) /\
  (ValidString (ErrorWrapper_Error wrapper) = true ->
   JSONErrorDecoder errors_New r = errors_New (ErrorWrapper_Error wrapper)).
Proof.
  intros Hc Hb.
  assert (H : JSONErrorDecoder errors_New r =
              errors_New (ToValidUTF8 (ErrorWrapper_Error wrapper))).
  { unfold JSONErrorDecoder. rewrite Hc, Hb. reflexivity. }
  split; [exact H|].
  intros Hv. rewrite H, (ValidString_ToValidUTF8 _ Hv). reflexivity.
Qed.

(** X7. A JSON error body that is an object without a member named "error"
    (in any case) is not refused: the decoder returns the domain error made
    from the empty string. *)
Theorem JSONErrorDecoder_no_error_member (r : Response)
    (members : list (string * json)) (rest : list json) :
  Contains (Header_Get (Response_Header r) "Content-Type") "application/json" = true ->
  Response_Body r = body_docs (JObject members :: rest) ->
  Forall (fun kv => foldName (fst kv) <> "error") members ->
  JSONErrorDecoder errors_New r = errors_New "".
Proof.
  intros Hc Hb Hm. unfold JSONErrorDecoder. rewrite Hc, Hb. simpl.
  rewrite (object_member_skip "error" _ members Hm). reflexivity.
Qed.

(** X8. A response without a Content-Type header is refused with the
    generic error, whatever its body holds. *)
Theorem JSONErrorDecoder_no_Content_Type (r : Response) :
  Response_Header r !! "Content-Type" = None ->
  JSONErrorDecoder errors_New r =
  fmt_Errorf "expected JSON formatted error, got Content-Type ".
Proof.
  intros Hh. unfold JSONErrorDecoder, Header_Get.
  change (CanonicalMIMEHeaderKey "Content-Type") with "Content-Type".
  rewrite Hh. reflexivity.
Qed.

(** X10. On status 200 the response decoders ignore the members they do not
    know: an object without a member named "res" (in any case) decodes to
    the zero response without an error. *)
Theorem decodeHTTPResponse_no_res_member (r : Response)
    (members : list (string * json)) (rest : list json) :
  Response_StatusCode r = 200 ->
  Response_Body r = body_docs (JObject members :: rest) ->
  Forall (fun kv => foldName (fst kv) <> "res") members ->
  decodeHTTPSumResponse errors_New r = (Some {| SumResponse_Res := 0 |}, None) /\
  decodeHTTPConcatResponse errors_New r = (Some {| ConcatResponse_Res := "" |}, None).
Proof.
  intros Hs Hb Hm.
  unfold decodeHTTPSumResponse, decodeHTTPConcatResponse.
  rewrite Hs, Hb. simpl.
  rewrite !(object_member_skip "res" _ members Hm). split; reflexivity.
Qed.

(** X11. A Sum result outside int64 is not wrapped around: on status 200 a
    body whose "res" is such a number decodes to the zero result together
    with a JSON type error that names the number. *)
Theorem decodeHTTPSumResponse_out_of_range (r : Response) (z : Z) (rest : list json) :
  Response_StatusCode r = 200 ->
  Response_Body r = body_docs (JObject [("res", json_int z)] :: rest) ->
  is_int64 z = false ->
  decodeHTTPSumResponse errors_New r =
  (Some {| SumResponse_Res := 0 |},
   Some (json_UnmarshalTypeError ("number " +:+ FormatInt z)
           "SumResponse" "res" "int64")).
Proof.
  intros Hs Hb Hz. unfold decodeHTTPSumResponse. rewrite Hs, Hb. simpl.
  unfold object_member, json_int. simpl.
  rewrite (ParseInt_FormatInt_outside z Hz). reflexivity.
Qed.

(** X9. An error that went through the translator, the wire and the error
    decoder comes back as a JSON type error; translated again (by a service
    that relays the failure of its call) it is answered with 400, whatever
    status the first translation gave it. *)
Theorem relayed_error_400 (FromError : string -> slice errors_Errors)
    (HTTPStatusFromCode : Z -> Z) (err : error) (w1 w : ResponseWriter) :
  httpEncodeError FromError HTTPStatusFromCode err NewRecorder = Returns w1 ->
  elems (FromError
           (error_Error (json_UnmarshalTypeError "object" "ErrorWrapper" "error" "string")))
    <> [] ->
  exists env,
    httpEncodeError FromError HTTPStatusFromCode
      (JSONErrorDecoder errors_New (Result w1)) w = Returns (written w env) /\
    ErrorResItem_Code (ErrorRes_Error env) = 400.
Proof.
  intros Hw Hne. destruct (httpEncodeError_written _ _ _ _ _ Hw) as [env1 ->].
  rewrite JSONErrorDecoder_envelope.
  rewrite httpEncodeError_fallback by reflexivity.
  destruct (index0_nonempty _ Hne) as [first [-> _]].
  eexists; split; reflexivity.
Qed.

End Decoders.

(* ===================================================================== *)
(** ** The response encoder *)
(* ===================================================================== *)

Lemma encodeJSONResponse_steps (w : ResponseWriter) (r : response) :
  encodeJSONResponse w r =
  if response_code r =? StatusNoContent
  then (WriteHeader (prepared w r) (response_code r), None)
  else Encode (WriteHeader (prepared w r) (response_code r)) (response_document r).
Proof.
  unfold encodeJSONResponse, prepared, add_headers, response_code, response_document.
  destruct (response_Headers r), (response_StatusCode r), (response_Response r);
    reflexivity.
Qed.

Lemma add_values_frame (key : string) (values : list string) (w : ResponseWriter) :
  let w' := fold_left (fun w v => with_Header w (Header_Add (rw_Header w) key v))
                      values w in
  rw_Code w' = rw_Code w /\ rw_sent w' = rw_sent w /\ rw_Body w' = rw_Body w.
Proof.
  revert w. induction values as [|v values IH]; intros w; simpl; [auto|].
  destruct (IH (with_Header w (Header_Add (rw_Header w) key v))) as (H1 & H2 & H3).
  rewrite H1, H2, H3. auto.
Qed.

Lemma add_headers_frame (headers : list (string * list string)) (w : ResponseWriter) :
  rw_Code (add_headers headers w) = rw_Code w /\
  rw_sent (add_headers headers w) = rw_sent w /\
  rw_Body (add_headers headers w) = rw_Body w.
Proof.
  unfold add_headers. revert w.
  induction headers as [|kv headers IH]; intros w; simpl; [auto|].
  destruct (IH (fold_left
                  (fun w v => with_Header w (Header_Add (rw_Header w) (fst kv) v))
                  (snd kv) w)) as (H1 & H2 & H3).
  destruct (add_values_frame (fst kv) (snd kv) w) as (G1 & G2 & G3).
  rewrite H1, H2, H3, G1, G2, G3. auto.
Qed.

(** Adding a value to a header leaves the first value of every header that
    has one where it is. *)
Lemma Header_Add_first (h : gmap string (list string)) (k v key first : string)
    (tl : list string) :
  h !! key = Some (first :: tl) ->
  exists tl', Header_Add h k v !! key = Some (first :: tl').
Proof.
  intros Hk. unfold Header_Add.
  destruct (decide (CanonicalMIMEHeaderKey k = key)) as [->|Hne].
  - rewrite lookup_insert_eq, Hk. simpl. eauto.
  - rewrite lookup_insert_ne by exact Hne. eauto.
Qed.

Lemma add_values_first (k : string) (values : list string) (key first : string) :
  forall (w : ResponseWriter) (tl : list string),
    rw_Header w !! key = Some (first :: tl) ->
    exists tl',
      rw_Header (fold_left (fun w v => with_Header w (Header_Add (rw_Header w) k v))
                           values w) !! key = Some (first :: tl').
Proof.
  induction values as [|v values IH]; intros w tl Hk; simpl; [eauto|].
  destruct (Header_Add_first (rw_Header w) k v key first tl Hk) as [tl' Hk'].
  apply (IH _ tl'). exact Hk'.
Qed.

Lemma add_headers_first (headers : list (string * list string)) (key first : string) :
  forall (w : ResponseWriter) (tl : list string),
    rw_Header w !! key = Some (first :: tl) ->
    exists tl', rw_Header (add_headers headers w) !! key = Some (first :: tl').
Proof.
  unfold add_headers.
  induction headers as [|kv headers IH]; intros w tl Hk; simpl; [eauto|].
  destruct (add_values_first (fst kv) (snd kv) key first w tl Hk) as [tl' Hk'].
  apply (IH _ tl'). exact Hk'.
Qed.

Lemma prepared_frame (w : ResponseWriter) (r : response) :
  rw_Code (prepared w r) = rw_Code w /\
  rw_sent (prepared w r) = rw_sent w /\
  rw_Body (prepared w r) = rw_Body w.
Proof.
  unfold prepared. destruct (response_Headers r) as [headers|]; [|auto].
  destruct (add_headers_frame headers
              (with_Header w
                 (Header_Set (rw_Header w) "Content-Type"
                             "application/json; charset=utf-8")))
    as (H1 & H2 & H3).
  rewrite H1, H2, H3. auto.
Qed.

Lemma prepared_Content_Type (w : ResponseWriter) (r : response) :
  exists tl,
    rw_Header (prepared w r) !! "Content-Type" =
    Some ("application/json; charset=utf-8" :: tl).
Proof.
  assert (H0 : rw_Header
                 (with_Header w
                    (Header_Set (rw_Header w) "Content-Type"
                                "application/json; charset=utf-8"))
               !! "Content-Type" = Some ["application/json; charset=utf-8"]).
  { unfold with_Header, Header_Set. simpl. apply lookup_insert_eq. }
  unfold prepared. destruct (response_Headers r) as [headers|]; [|eauto].
  apply (add_headers_first headers _ _ _ [] H0).
Qed.

Lemma Header_Get_first (h : gmap string (list string)) (first : string)
    (tl : list string) :
  h !! "Content-Type" = Some (first :: tl) -> Header_Get h "Content-Type" = first.
Proof.
  intros Hh. unfold Header_Get.
  change (CanonicalMIMEHeaderKey "Content-Type") with "Content-Type".
  rewrite Hh. reflexivity.
Qed.


Lemma WriteHeader_Body (w : ResponseWriter) (code : Z) :
  rw_Body (WriteHeader w code) = rw_Body w.
Proof.
  unfold WriteHeader. destruct (rw_Code w) eqn:E; simpl; rewrite ?E; reflexivity.
Qed.

Lemma WriteHeader_Code (w : ResponseWriter) (code : Z) :
  rw_Code (WriteHeader w code) =
  match rw_Code w with
  | Some c => Some c
  | None => Some code
  end.
Proof.
  unfold WriteHeader. destruct (rw_Code w) eqn:E; simpl; rewrite ?E; reflexivity.
Qed.

Lemma WriteHeader_sent (w : ResponseWriter) (code : Z) :
  rw_sent (WriteHeader w code) =
  match rw_Code w with
  | Some _ => rw_sent w
  | None => rw_Header w
  end.
Proof.
  unfold WriteHeader. destruct (rw_Code w) eqn:E; simpl; rewrite ?E; reflexivity.
Qed.

Lemma WriteHeader_again (w : ResponseWriter) (code code' : Z) :
  WriteHeader (WriteHeader w code) code' = WriteHeader w code.
Proof.
  unfold WriteHeader. destruct (rw_Code w) eqn:E; simpl; rewrite ?E; reflexivity.
Qed.


(** The exchange after a response was encoded to a new writer. *)
Lemma served_steps (r : response) :
  Response_StatusCode (served r) = response_code r /\
  Response_Header (served r) = rw_Header (prepared NewRecorder r) /\
  Response_Body (served r) =
    body_docs (if response_code r =? StatusNoContent then []
               else match response_document r with
                    | inl doc => [doc]
                    | inr _ => []
                    end).
Proof.
  unfold served. rewrite encodeJSONResponse_steps.
  destruct (prepared_frame NewRecorder r) as (H1 & H2 & H3). simpl in H1, H2, H3.
  destruct (response_code r =? StatusNoContent);
    [|destruct (response_document r)];
    unfold Result, Encode, Write; simpl;
    rewrite ?WriteHeader_again, ?WriteHeader_Code, ?WriteHeader_sent,
      ?WriteHeader_Body, ?H1, ?H3; simpl; auto.
Qed.


(** X13. A value whose StatusCode() is 204 gets its status line and no
    body: nothing is handed to the JSON encoder, so no error is returned
    even for a value that cannot be marshalled. *)
Theorem encodeJSONResponse_NoContent (w : ResponseWriter) (r : response) :
  response_StatusCode r = Some 204 ->
  snd (encodeJSONResponse w r) = None /\
  rw_Body (fst (encodeJSONResponse w r)) = rw_Body w /\
  (rw_Code w = None -> rw_Code (fst (encodeJSONResponse w r)) = Some 204).
Proof.
  intros Hs. rewrite encodeJSONResponse_steps.
  assert (Hc : response_code r = 204) by (unfold response_code; rewrite Hs; reflexivity).
  rewrite Hc. simpl.
  destruct (prepared_frame w r) as (H1 & H2 & H3).
  rewrite WriteHeader_Body, WriteHeader_Code, H1, H3.
  repeat split; auto. intros ->. reflexivity.
Qed.

(** X14. When the value (or the Response() of a Responser) cannot be
    marshalled, and its code is one that WriteHeader accepts (100 to 999)
    and is not 204, the error is returned and nothing is written to the
    body, but the status line of the success code is already written. *)
Theorem encodeJSONResponse_marshal_error (w : ResponseWriter) (r : response)
    (err : error) :
  checkWriteHeaderCode (response_code r) = true ->
  response_code r <> 204 ->
  response_document r = inr err ->
  snd (encodeJSONResponse w r) = Some err /\
  rw_Body (fst (encodeJSONResponse w r)) = rw_Body w /\
  (rw_Code w = None ->
   rw_Code (fst (encodeJSONResponse w r)) = Some (response_code r)).
Proof.
  intros _ Hc Hd. rewrite encodeJSONResponse_steps.
  apply Z.eqb_neq in Hc. unfold StatusNoContent. rewrite Hc, Hd. simpl.
  destruct (prepared_frame w r) as (H1 & H2 & H3).
  rewrite WriteHeader_Body, WriteHeader_Code, H1, H3.
  repeat split; auto. intros ->. reflexivity.
Qed.



(** X16. A response value that asks for a status code other than 200 is
    lost on the client: the response decoders return no value for it, and
    for 204, which has no body, the error they return is io.EOF. *)
Theorem status_coder_not_decoded (errors_New : string -> error) (r : response)
    (sc : Z) :
  response_StatusCode r = Some sc ->
  sc <> 200 ->
  fst (decodeHTTPSumResponse errors_New (served r)) = None /\
  fst (decodeHTTPConcatResponse errors_New (served r)) = None /\
  (sc = 204 ->
   decodeHTTPSumResponse errors_New (served r) = (None, Some io_EOF) /\
   decodeHTTPConcatResponse errors_New (served r) = (None, Some io_EOF)).
Proof.
  intros Hs Hne.
  assert (Hc : response_code r = sc) by (unfold response_code; rewrite Hs; reflexivity).
  destruct (served_steps r) as (Hst & Hh & Hb). rewrite Hc in Hst, Hb.
  unfold decodeHTTPSumResponse, decodeHTTPConcatResponse.
  rewrite Hst. apply Z.eqb_neq in Hne. unfold StatusOK. rewrite Hne. simpl.
  split; [reflexivity|]. split; [reflexivity|].
  intros ->.
  destruct (prepared_Content_Type NewRecorder r) as [tl Htl].
  assert (Hget : Header_Get (Response_Header (served r)) "Content-Type" =
                 "application/json; charset=utf-8")
    by (rewrite Hh; apply (Header_Get_first _ _ tl Htl)).
  split; unfold JSONErrorDecoder; rewrite Hget, Hb; reflexivity.
Qed.

(* ===================================================================== *)
(** ** The client constructor and the store *)
(* ===================================================================== *)

(** X17. copyURL replaces the path, it does not extend it: the copy of a
    copy has the second path and nothing of the first, the first copy and
    the base keep their values, and the three URLs live at three different
    addresses. *)
Theorem copyURL_twice (base : ptr) (p q : string) (h : gmap nat URL) (b : URL) :
  h !! base = Some b ->
  exists n1 h1 n2 h2,
    copyURL base p h = Returns (n1, h1) /\
    copyURL n1 q h1 = Returns (n2, h2) /\
    h2 !! n2 = Some (URL_with_Path b q) /\
    h2 !! n1 = Some (URL_with_Path b p) /\
    h2 !! base = Some b /\
    n1 <> base /\ n2 <> base /\ n2 <> n1.
Proof.
  intros Hb.
  destruct (copyURL_allocates base p h b Hb) as (n1 & h1 & Hc1 & Hv1 & Hn1 & Hf1).
  destruct (copyURL_allocates n1 q h1 _ Hv1) as (n2 & h2 & Hc2 & Hv2 & Hn2 & Hf2).
  assert (Hne1 : n1 <> base) by congruence.
  assert (Hne21 : n2 <> n1) by congruence.
  assert (Hb1 : h1 !! base = Some b) by (rewrite Hf1 by congruence; exact Hb).
  assert (Hne2 : n2 <> base) by congruence.
  exists n1, h1, n2, h2. repeat split; try assumption.
  - rewrite Hf2 by congruence. exact Hv1.
  - rewrite Hf2 by congruence. exact Hb1.
Qed.

Section ClientStore.

Variable errors_New : string -> error.
Variable url_Parse : string -> URL + error.

Lemma parsed_instance_http (instance : string) :
  HasPrefix (parsed_instance instance) "http" = true.
Proof.
  unfold parsed_instance. destruct (HasPrefix instance "http") eqn:E.
  - exact E.
  - apply HasPrefix_http.
Qed.

(** The store after a successful construction: the parsed URL and the two
    targets at three new addresses, everything else as before. *)
Lemma NewHTTPClient_store (instance : string) (h : gmap nat URL) (u : URL) :
  url_Parse (parsed_instance instance) = inl u ->
  exists e h' pu,
    NewHTTPClient errors_New url_Parse instance h = Returns ((Some e, None), h') /\
    e = {| SumEndpoint :=
             {| Client_method := "POST"; Client_tgt := Client_tgt (SumEndpoint e);
                Client_dec := decodeHTTPSumResponse errors_New |};
           ConcatEndpoint :=
             {| Client_method := "POST"; Client_tgt := Client_tgt (ConcatEndpoint e);
                Client_dec := decodeHTTPConcatResponse errors_New |} |} /\
    h' !! pu = Some u /\
    h' !! Client_tgt (SumEndpoint e) = Some (URL_with_Path u "/sum") /\
    h' !! Client_tgt (ConcatEndpoint e) = Some (URL_with_Path u "/concat") /\
    h !! pu = None /\
    h !! Client_tgt (SumEndpoint e) = None /\
    h !! Client_tgt (ConcatEndpoint e) = None /\
    Client_tgt (SumEndpoint e) <> Client_tgt (ConcatEndpoint e) /\
    pu <> Client_tgt (SumEndpoint e) /\
    pu <> Client_tgt (ConcatEndpoint e) /\
    (forall p, p <> pu -> p <> Client_tgt (SumEndpoint e) ->
               p <> Client_tgt (ConcatEndpoint e) -> h' !! p = h !! p).
Proof.
  intros Hu. rewrite NewHTTPClient_parsed, Hu.
  set (pu := fst (new h u)). set (h0 := snd (new h u)).
  assert (Hpu : h !! pu = None)
    by (unfold pu, new; simpl; apply not_elem_of_dom; apply is_fresh).
  assert (H0 : h0 !! pu = Some u)
    by (unfold h0, pu, new; simpl; apply lookup_insert_eq).
  assert (Hf0 : forall p, p <> pu -> h0 !! p = h !! p).
  { intros p Hp. unfold h0, new. simpl. apply lookup_insert_ne.
    intros Heq. apply Hp. rewrite <- Heq. reflexivity. }
  destruct (copyURL_allocates pu "/sum" h0 u H0) as (t1 & h1 & -> & Hv1 & Hn1 & Hf1).
  assert (Ht1 : t1 <> pu) by congruence.
  assert (H1 : h1 !! pu = Some u) by (rewrite Hf1 by congruence; exact H0).
  destruct (copyURL_allocates pu "/concat" h1 u H1) as (t2 & h2 & -> & Hv2 & Hn2 & Hf2).
  assert (Ht2 : t2 <> pu) by congruence.
  assert (Ht12 : t1 <> t2) by congruence.
  eexists _, h2, pu. split; [reflexivity|]. simpl.
  split; [reflexivity|].
  split; [rewrite Hf2 by congruence; exact H1|].
  split; [rewrite Hf2 by congruence; exact Hv1|].
  split; [exact Hv2|].
  split; [exact Hpu|].
  split; [rewrite <- Hf0 by exact Ht1; exact Hn1|].
  split; [rewrite <- Hf0 by exact Ht2; rewrite <- Hf1 by congruence; exact Hn2|].
  split; [exact Ht12|].
  split; [congruence|]. split; [congruence|].
  intros p Hp Hp1 Hp2.
  rewrite Hf2 by exact Hp2. rewrite Hf1 by exact Hp1. apply Hf0. exact Hp.
Qed.

(** X18. The constructor never panics and returns exactly one of a service
    and an error: the parser's error with no service and an untouched
    store when the parser refuses the string, a service with no error
    otherwise. *)
Theorem NewHTTPClient_total (instance : string) (h : gmap nat URL) :
  (exists err,
     url_Parse (parsed_instance instance) = inr err /\
     NewHTTPClient errors_New url_Parse instance h = Returns ((None, Some err), h)) \/
  (exists u e h',
     url_Parse (parsed_instance instance) = inl u /\
     NewHTTPClient errors_New url_Parse instance h = Returns ((Some e, None), h')).
Proof.
  destruct (url_Parse (parsed_instance instance)) as [u|err] eqn:Hu.
  - right. destruct (NewHTTPClient_store instance h u Hu) as (e & h' & pu & Hc & _).
    exists u, e, h'. auto.
  - left. exists err. split; [reflexivity|].
    rewrite NewHTTPClient_parsed, Hu. reflexivity.
Qed.

(** X19. Both endpoints of a constructed client use POST, decode with the
    decoder of their own operation, and target the parsed instance URL with
    its path replaced by "/sum" and "/concat": scheme, host, user, query and
    fragment of the instance are kept, a path of the instance is dropped. *)
Theorem NewHTTPClient_targets (instance : string) (h : gmap nat URL) (u : URL) :
  url_Parse (parsed_instance instance) = inl u ->
  exists e h',
    NewHTTPClient errors_New url_Parse instance h = Returns ((Some e, None), h') /\
    Client_method (SumEndpoint e) = "POST" /\
    Client_method (ConcatEndpoint e) = "POST" /\
    Client_dec (SumEndpoint e) = decodeHTTPSumResponse errors_New /\
    Client_dec (ConcatEndpoint e) = decodeHTTPConcatResponse errors_New /\
    h' !! Client_tgt (SumEndpoint e) = Some (URL_with_Path u "/sum") /\
    h' !! Client_tgt (ConcatEndpoint e) = Some (URL_with_Path u "/concat").
Proof.
  intros Hu.
  destruct (NewHTTPClient_store instance h u Hu)
    as (e & h' & pu & Hc & He & _ & Hs & Hcc & _).
  exists e, h'. rewrite He. simpl. rewrite He in Hs, Hcc. simpl in Hs, Hcc.
  repeat split; try assumption.
  rewrite Hc. rewrite He at 1. reflexivity.
Qed.

(** X20. A successful construction allocates three URL objects, the parsed
    instance and the two targets, at addresses that were unused and differ
    from each other; every URL that was in the store stays at its address
    with its value. *)
Theorem NewHTTPClient_store_frame (instance : string) (h : gmap nat URL) (u : URL) :
  url_Parse (parsed_instance instance) = inl u ->
  exists e h' pu,
    NewHTTPClient errors_New url_Parse instance h = Returns ((Some e, None), h') /\
    h' !! pu = Some u /\
    h !! pu = None /\
    h !! Client_tgt (SumEndpoint e) = None /\
    h !! Client_tgt (ConcatEndpoint e) = None /\
    pu <> Client_tgt (SumEndpoint e) /\
    pu <> Client_tgt (ConcatEndpoint e) /\
    Client_tgt (SumEndpoint e) <> Client_tgt (ConcatEndpoint e) /\
    (forall p v, h !! p = Some v -> h' !! p = Some v) /\
    (forall p, p <> pu -> p <> Client_tgt (SumEndpoint e) ->
               p <> Client_tgt (ConcatEndpoint e) -> h' !! p = h !! p).
Proof.
  intros Hu.
  destruct (NewHTTPClient_store instance h u Hu)
    as (e & h' & pu & Hc & He & Hpu' & Hs & Hcc & Hpu & Hs0 & Hc0 & Hne & Hp1 & Hp2 & Hfr).
  exists e, h', pu. repeat split; try assumption.
  intros p v Hp. rewrite Hfr; [exact Hp | | |]; intros ->;
    unfold ptr in *; clear He; congruence.
Qed.

End ClientStore.

(** C9, what the code does. The bare host:port "httpbin.org:80" begins with
    "http", so the sanitizing step prefixes no scheme: what url.Parse makes
    of the string itself decides the outcome, its error with no service,
    or a client whose targets are copies of what it parsed. url.Parse reads
    "httpbin.org" as the scheme and "80" as an opaque part, so the Sum
    endpoint is given a URL without a host, where the same string with a
    scheme gives the host httpbin.org:80. *)
Theorem NewHTTPClient_http_host :
  is_host_port "httpbin.org:80" = true /\
  HasPrefix "httpbin.org:80" "http" = true /\
  (forall (errors_New : string -> error) (url_Parse : string -> URL + error)
          (h : gmap nat URL) (err : error),
     url_Parse "httpbin.org:80" = inr err ->
     NewHTTPClient errors_New url_Parse "httpbin.org:80" h =
     Returns ((None, Some err), h)) /\
  (forall (errors_New : string -> error) (url_Parse : string -> URL + error)
          (h : gmap nat URL) (u : URL),
     url_Parse "httpbin.org:80" = inl u ->
     exists e h',
       NewHTTPClient errors_New url_Parse "httpbin.org:80" h =
       Returns ((Some e, None), h') /\
       h' !! Client_tgt (SumEndpoint e) = Some (URL_with_Path u "/sum") /\
       h' !! Client_tgt (ConcatEndpoint e) = Some (URL_with_Path u "/concat")) /\
  sum_target (NewHTTPClient errors_New_spec url_Parse_plain "httpbin.org:80" ∅) =
    Some {| URL_Scheme := "httpbin.org"; URL_Opaque := "80"; URL_User := None;
            URL_Host := ""; URL_Path := "/sum"; URL_RawPath := "";
            URL_ForceQuery := false; URL_RawQuery := "";
            URL_Fragment := ""; URL_RawFragment := "" |} /\
  sum_target (NewHTTPClient errors_New_spec url_Parse_plain
                ("http://" +:+ "httpbin.org:80") ∅) =
    Some {| URL_Scheme := "http"; URL_Opaque := ""; URL_User := None;
            URL_Host := "httpbin.org:80"; URL_Path := "/sum"; URL_RawPath := "";
            URL_ForceQuery := false; URL_RawQuery := "";
            URL_Fragment := ""; URL_RawFragment := "" |}.
Proof.
  split; [reflexivity|]. split; [reflexivity|]. split; [|split; [|split]].
  - intros errors_New url_Parse h err He.
    rewrite NewHTTPClient_parsed.
    change (parsed_instance "httpbin.org:80") with "httpbin.org:80".
    rewrite He. reflexivity.
  - intros errors_New url_Parse h u Hu.
    destruct (NewHTTPClient_store errors_New url_Parse "httpbin.org:80" h u Hu)
      as (e & h' & pu & Hc & _ & _ & Hs & Hcc & _).
    exists e, h'. auto.
  - vm_compute. reflexivity.
  - vm_compute. reflexivity.
Qed.

(** X21. The constructor consults url.Parse only on strings that begin with
    "http": two parsers that agree on those strings build the same client
    from every instance string. *)
Theorem NewHTTPClient_parser_domain (errors_New : string -> error)
    (parse parse' : string -> URL + error) (instance : string) (h : gmap nat URL) :
  (forall s, HasPrefix s "http" = true -> parse s = parse' s) ->
  NewHTTPClient errors_New parse instance h =
  NewHTTPClient errors_New parse' instance h.
Proof.
  intros Hagree. rewrite !NewHTTPClient_parsed.
  rewrite (Hagree _ (parsed_instance_http instance)). reflexivity.
Qed.

(* ===================================================================== *)
(** ** The further statements at concrete inputs *)
(* ===================================================================== *)

Lemma httpEncodeError_status_set_witness :
  error_GRPCStatus io_ErrUnexpectedEOF = None /\
  httpEncodeError FromError_spec HTTPStatusFromCode_spec io_ErrUnexpectedEOF
    NewRecorder =
    Returns (written NewRecorder
               (envelope 400 "unexpected EOF" (FromError_spec "unexpected EOF"))) /\
  exists env,
    written NewRecorder
      (envelope 400 "unexpected EOF" (FromError_spec "unexpected EOF")) =
    written NewRecorder env /\
    (ErrorResItem_Code (ErrorRes_Error env) = 400 \/
     ErrorResItem_Code (ErrorRes_Error env) = 401 \/
     ErrorResItem_Code (ErrorRes_Error env) = 500) /\
    (error_as_errors_Error io_ErrUnexpectedEOF <> None ->
     ErrorResItem_Code (ErrorRes_Error env) = 500).
Proof.
  split; [reflexivity|]. split; [reflexivity|].
  apply (httpEncodeError_status_set FromError_spec HTTPStatusFromCode_spec
           io_ErrUnexpectedEOF NewRecorder); reflexivity.
Defined.




Lemma JSONErrorDecoder_ErrorWrapper_witness :
  Contains (Header_Get (Response_Header
                          (json_Response 500
                             [json_ErrorWrapper {| ErrorWrapper_Error := "boom" |}]))
                       "Content-Type") "application/json" = true /\
  Response_Body (json_Response 500
                   [json_ErrorWrapper {| ErrorWrapper_Error := "boom" |}]) =
    body_docs (json_ErrorWrapper {| ErrorWrapper_Error := "boom" |} :: []) /\
  JSONErrorDecoder errors_New_spec
    (json_Response 500 [json_ErrorWrapper {| ErrorWrapper_Error := "boom" |}]) =
    errors_New_spec (ToValidUTF8 "boom") /\
  (ValidString "boom" = true ->
   JSONErrorDecoder errors_New_spec
     (json_Response 500 [json_ErrorWrapper {| ErrorWrapper_Error := "boom" |}]) =
     errors_New_spec "boom").
Proof.
  split; [reflexivity|]. split; [reflexivity|].
  apply (JSONErrorDecoder_ErrorWrapper errors_New_spec
           (json_Response 500 [json_ErrorWrapper {| ErrorWrapper_Error := "boom" |}])
           {| ErrorWrapper_Error := "boom" |} []);
    reflexivity.
Defined.

Lemma JSONErrorDecoder_no_error_member_witness :
  Contains (Header_Get (Response_Header
                          (json_Response 404 [JObject [("message", JString "gone")]]))
                       "Content-Type") "application/json" = true /\
  Response_Body (json_Response 404 [JObject [("message", JString "gone")]]) =
    body_docs (JObject [("message", JString "gone")] :: []) /\
  Forall (fun kv => foldName (fst kv) <> "error") [("message", JString "gone")] /\
  JSONErrorDecoder errors_New_spec
    (json_Response 404 [JObject [("message", JString "gone")]]) =
    errors_New_spec "".
Proof.
  split; [reflexivity|]. split; [reflexivity|].
  split; [repeat constructor; discriminate|].
  apply (JSONErrorDecoder_no_error_member errors_New_spec
           (json_Response 404 [JObject [("message", JString "gone")]])
           [("message", JString "gone")] []);
    [reflexivity | reflexivity | repeat constructor; discriminate].
Defined.

Lemma JSONErrorDecoder_no_Content_Type_witness :
  Response_Header
    {| Response_StatusCode := 502; Response_Header := ∅;
       Response_Body := body_docs [JObject [("error", JString "boom")]] |}
    !! "Content-Type" = None /\
  JSONErrorDecoder errors_New_spec
    {| Response_StatusCode := 502; Response_Header := ∅;
       Response_Body := body_docs [JObject [("error", JString "boom")]] |} =
  fmt_Errorf "expected JSON formatted error, got Content-Type ".
Proof.
  split; [reflexivity|].
  apply (JSONErrorDecoder_no_Content_Type errors_New_spec). reflexivity.
Defined.

Lemma relayed_error_400_witness :
  httpEncodeError FromError_spec HTTPStatusFromCode_spec
    kitjwt_ErrTokenContextMissing NewRecorder =
    Returns (written NewRecorder
               (envelope 401
                  "token up for parsing was not passed through the context"
                  (FromError_spec
                     "token up for parsing was not passed through the context"))) /\
  elems (FromError_spec
           (error_Error
              (json_UnmarshalTypeError "object" "ErrorWrapper" "error" "string")))
    <> [] /\
  exists env,
    httpEncodeError FromError_spec HTTPStatusFromCode_spec
      (JSONErrorDecoder errors_New_spec
         (Result (written NewRecorder
                    (envelope 401
                       "token up for parsing was not passed through the context"
                       (FromError_spec
                          "token up for parsing was not passed through the context")))))
      NewRecorder = Returns (written NewRecorder env) /\
    ErrorResItem_Code (ErrorRes_Error env) = 400.
Proof.
  split; [reflexivity|]. split; [discriminate|].
  apply (relayed_error_400 errors_New_spec FromError_spec HTTPStatusFromCode_spec
           kitjwt_ErrTokenContextMissing);
    [reflexivity | discriminate].
Defined.

Lemma decodeHTTPResponse_no_res_member_witness :
  Response_StatusCode (json_Response 200 [JObject [("v", JNumber "5")]]) = 200 /\
  Response_Body (json_Response 200 [JObject [("v", JNumber "5")]]) =
    body_docs (JObject [("v", JNumber "5")] :: []) /\
  Forall (fun kv => foldName (fst kv) <> "res") [("v", JNumber "5")] /\
  decodeHTTPSumResponse errors_New_spec
    (json_Response 200 [JObject [("v", JNumber "5")]]) =
    (Some {| SumResponse_Res := 0 |}, None) /\
  decodeHTTPConcatResponse errors_New_spec
    (json_Response 200 [JObject [("v", JNumber "5")]]) =
    (Some {| ConcatResponse_Res := "" |}, None).
Proof.
  split; [reflexivity|]. split; [reflexivity|].
  split; [repeat constructor; discriminate|].
  apply (decodeHTTPResponse_no_res_member errors_New_spec
           (json_Response 200 [JObject [("v", JNumber "5")]])
           [("v", JNumber "5")] []);
    [reflexivity | reflexivity | repeat constructor; discriminate].
Defined.

Lemma decodeHTTPSumResponse_out_of_range_witness :
  Response_StatusCode
    (json_Response 200 [JObject [("res", json_int 9223372036854775808)]]) = 200 /\
  Response_Body
    (json_Response 200 [JObject [("res", json_int 9223372036854775808)]]) =
    body_docs (JObject [("res", json_int 9223372036854775808)] :: []) /\
  is_int64 9223372036854775808 = false /\
  decodeHTTPSumResponse errors_New_spec
    (json_Response 200 [JObject [("res", json_int 9223372036854775808)]]) =
  (Some {| SumResponse_Res := 0 |},
   Some (json_UnmarshalTypeError ("number " +:+ FormatInt 9223372036854775808)
           "SumResponse" "res" "int64")).
Proof.
  split; [reflexivity|]. split; [reflexivity|]. split; [reflexivity|].
  apply (decodeHTTPSumResponse_out_of_range errors_New_spec
           (json_Response 200 [JObject [("res", json_int 9223372036854775808)]])
           9223372036854775808 []);
    reflexivity.
Defined.

Lemma encodeJSONResponse_NoContent_witness :
  response_StatusCode
    {| response_Headers := None; response_StatusCode := Some 204;
       response_Response := None;
       response_json := inr (fmt_Errorf "json: unsupported type: chan int") |}
    = Some 204 /\
  snd (encodeJSONResponse NewRecorder
         {| response_Headers := None; response_StatusCode := Some 204;
            response_Response := None;
            response_json := inr (fmt_Errorf "json: unsupported type: chan int") |})
    = None /\
  rw_Body (fst (encodeJSONResponse NewRecorder
                  {| response_Headers := None; response_StatusCode := Some 204;
                     response_Response := None;
                     response_json :=
                       inr (fmt_Errorf "json: unsupported type: chan int") |}))
    = rw_Body NewRecorder /\
  (rw_Code NewRecorder = None ->
   rw_Code (fst (encodeJSONResponse NewRecorder
                   {| response_Headers := None; response_StatusCode := Some 204;
                      response_Response := None;
                      response_json :=
                        inr (fmt_Errorf "json: unsupported type: chan int") |}))
     = Some 204).
Proof.
  split; [reflexivity|].
  apply (encodeJSONResponse_NoContent NewRecorder). reflexivity.
Defined.

Lemma encodeJSONResponse_marshal_error_witness :
  checkWriteHeaderCode (response_code unmarshallable) = true /\
  response_code unmarshallable <> 204 /\
  response_document unmarshallable =
    inr (fmt_Errorf "json: unsupported type: chan int") /\
  snd (encodeJSONResponse NewRecorder unmarshallable) =
    Some (fmt_Errorf "json: unsupported type: chan int") /\
  rw_Body (fst (encodeJSONResponse NewRecorder unmarshallable)) = rw_Body NewRecorder /\
  (rw_Code NewRecorder = None ->
   rw_Code (fst (encodeJSONResponse NewRecorder unmarshallable)) =
     Some (response_code unmarshallable)).
Proof.
  split; [reflexivity|]. split; [discriminate|]. split; [reflexivity|].
  apply (encodeJSONResponse_marshal_error NewRecorder unmarshallable);
    [reflexivity | discriminate | reflexivity].
Defined.


Lemma status_coder_not_decoded_witness :
  response_StatusCode
    {| response_Headers := None; response_StatusCode := Some 204;
       response_Response := None;
       response_json := inl JNull |}
    = Some 204 /\
  204 <> 200 /\
  fst (decodeHTTPSumResponse errors_New_spec
         (served {| response_Headers := None; response_StatusCode := Some 204;
                    response_Response := None;
                    response_json :=
                      inl JNull |})) = None /\
  fst (decodeHTTPConcatResponse errors_New_spec
         (served {| response_Headers := None; response_StatusCode := Some 204;
                    response_Response := None;
                    response_json :=
                      inl JNull |})) = None /\
  (204 = 204 ->
   decodeHTTPSumResponse errors_New_spec
     (served {| response_Headers := None; response_StatusCode := Some 204;
                response_Response := None;
                response_json :=
                  inl JNull |}) =
     (None, Some io_EOF) /\
   decodeHTTPConcatResponse errors_New_spec
     (served {| response_Headers := None; response_StatusCode := Some 204;
                response_Response := None;
                response_json :=
                  inl JNull |}) =
     (None, Some io_EOF)).
Proof.
  split; [reflexivity|]. split; [lia|].
  apply (status_coder_not_decoded errors_New_spec
           {| response_Headers := None; response_StatusCode := Some 204;
              response_Response := None;
              response_json := inl JNull |}
           204);
    [reflexivity | lia].
Defined.

Lemma copyURL_twice_witness :
  ({[ 0%nat := localhost_URL ]} : gmap nat URL) !! 0%nat = Some localhost_URL /\
  exists n1 h1 n2 h2,
    copyURL 0%nat "/api" {[ 0%nat := localhost_URL ]} = Returns (n1, h1) /\
    copyURL n1 "/sum" h1 = Returns (n2, h2) /\
    h2 !! n2 = Some (URL_with_Path localhost_URL "/sum") /\
    h2 !! n1 = Some (URL_with_Path localhost_URL "/api") /\
    h2 !! 0%nat = Some localhost_URL /\
    n1 <> 0%nat /\ n2 <> 0%nat /\ n2 <> n1.
Proof.
  split; [reflexivity|].
  apply (copyURL_twice 0%nat "/api" "/sum" {[ 0%nat := localhost_URL ]} localhost_URL).
  reflexivity.
Defined.

Lemma NewHTTPClient_targets_witness :
  url_Parse_plain (parsed_instance "http://localhost:8080/api/add") =
    inl (URL_with_Path localhost_URL "/api/add") /\
  exists e h',
    NewHTTPClient errors_New_spec url_Parse_plain "http://localhost:8080/api/add" ∅ =
      Returns ((Some e, None), h') /\
    Client_method (SumEndpoint e) = "POST" /\
    Client_method (ConcatEndpoint e) = "POST" /\
    Client_dec (SumEndpoint e) = decodeHTTPSumResponse errors_New_spec /\
    Client_dec (ConcatEndpoint e) = decodeHTTPConcatResponse errors_New_spec /\
    h' !! Client_tgt (SumEndpoint e) =
      Some (URL_with_Path (URL_with_Path localhost_URL "/api/add") "/sum") /\
    h' !! Client_tgt (ConcatEndpoint e) =
      Some (URL_with_Path (URL_with_Path localhost_URL "/api/add") "/concat").
Proof.
  split; [reflexivity|].
  apply (NewHTTPClient_targets errors_New_spec url_Parse_plain
           "http://localhost:8080/api/add" ∅).
  reflexivity.
Defined.

Lemma NewHTTPClient_store_frame_witness :
  url_Parse_plain (parsed_instance "localhost:8080") = inl localhost_URL /\
  exists e h' pu,
    NewHTTPClient errors_New_spec url_Parse_plain "localhost:8080"
      {[ 0%nat := URL_with_Path localhost_URL "/kept" ]} =
      Returns ((Some e, None), h') /\
    h' !! pu = Some localhost_URL /\
    ({[ 0%nat := URL_with_Path localhost_URL "/kept" ]} : gmap nat URL) !! pu = None /\
    ({[ 0%nat := URL_with_Path localhost_URL "/kept" ]} : gmap nat URL)
      !! Client_tgt (SumEndpoint e) = None /\
    ({[ 0%nat := URL_with_Path localhost_URL "/kept" ]} : gmap nat URL)
      !! Client_tgt (ConcatEndpoint e) = None /\
    pu <> Client_tgt (SumEndpoint e) /\
    pu <> Client_tgt (ConcatEndpoint e) /\
    Client_tgt (SumEndpoint e) <> Client_tgt (ConcatEndpoint e) /\
    (forall p v,
       ({[ 0%nat := URL_with_Path localhost_URL "/kept" ]} : gmap nat URL) !! p = Some v ->
       h' !! p = Some v) /\
    (forall p, p <> pu -> p <> Client_tgt (SumEndpoint e) ->
               p <> Client_tgt (ConcatEndpoint e) ->
               h' !! p =
               ({[ 0%nat := URL_with_Path localhost_URL "/kept" ]} : gmap nat URL) !! p).
Proof.
  split; [reflexivity|].
  apply (NewHTTPClient_store_frame errors_New_spec url_Parse_plain "localhost:8080"
           {[ 0%nat := URL_with_Path localhost_URL "/kept" ]} localhost_URL).
  reflexivity.
Defined.

Lemma NewHTTPClient_parser_domain_witness :
  (forall s, HasPrefix s "http" = true -> url_Parse_plain s = url_Parse_http_only s) /\
  NewHTTPClient errors_New_spec url_Parse_plain "localhost:8080" ∅ =
  NewHTTPClient errors_New_spec url_Parse_http_only "localhost:8080" ∅.
Proof.
  split.
  - intros s Hs. unfold url_Parse_http_only. rewrite Hs. reflexivity.
  - apply (NewHTTPClient_parser_domain errors_New_spec url_Parse_plain
             url_Parse_http_only "localhost:8080" ∅).
    intros s Hs. unfold url_Parse_http_only. rewrite Hs. reflexivity.
Defined.
